(** * Saving and Loading Models: a shallow embedding of the notebook

    The notebook [Chapter 7/Saving and Loading Models.ipynb] consists of six
    code cells.  Each cell is a short straight-line script over pandas,
    scikit-learn, pickle and the ONNX runtime.  This development embeds the
    cells as Rocq functions.  The library calls the cells make are embedded
    with the behaviour the libraries document for the arguments the cells
    pass; what a library computes numerically (the optimiser behind [fit])
    is kept abstract. *)

From Stdlib Require Import List String Ascii ZArith Bool Arith Lia Permutation.
From Stdlib Require Import DecimalString.
From Stdlib Require Import Reals Lra.
Import ListNotations.

Set Implicit Arguments.

(** ** Python values the cells pass around *)

Module Python.

(** The exceptions the modelled library calls raise. *)
Inductive exn : Type :=
| KeyError (key : string)
| ValueError (msg : string)
| IndexError
| TypeError
| AttributeError
| OSError (msg : string).

(** A computation either returns or raises. *)
Inductive result (A : Type) : Type :=
| Ok (a : A)
| Raise (e : exn).

Arguments Ok {A} a.
Arguments Raise {A} e.

Definition bind {A B : Type} (m : result A) (k : A -> result B) : result B :=
  match m with
  | Ok a => k a
  | Raise e => Raise e
  end.

(** [xs[i]] for a non-negative literal index: [IndexError] out of range. *)
Definition list_getitem {A : Type} (xs : list A) (i : nat) : result A :=
  match nth_error xs i with
  | Some x => Ok x
  | None => Raise IndexError
  end.

(** Every element through a fallible function, the first failure wins. *)
Fixpoint traverse {A B : Type} (f : A -> result B) (xs : list A)
  : result (list B) :=
  match xs with
  | [] => Ok []
  | x :: xs' =>
      bind (f x) (fun y => bind (traverse f xs') (fun ys => Ok (y :: ys)))
  end.

(** [sorted(xs)] under a given order, by insertion. *)
Fixpoint insort {A : Type} (leb : A -> A -> bool) (x : A) (xs : list A)
  : list A :=
  match xs with
  | [] => [x]
  | y :: xs' => if leb x y then x :: xs else y :: insort leb x xs'
  end.

Fixpoint sorted {A : Type} (leb : A -> A -> bool) (xs : list A) : list A :=
  match xs with
  | [] => []
  | x :: xs' => insort leb x (sorted leb xs')
  end.

(** Equality of two lists, element by element. *)
Fixpoint list_eqb {A : Type} (eqb : A -> A -> bool) (xs ys : list A) : bool :=
  match xs, ys with
  | [], [] => true
  | x :: xs', y :: ys' => eqb x y && list_eqb eqb xs' ys'
  | _, _ => false
  end.

(** [d.get(key)] on a dict with string keys, kept as a list of items. *)
Fixpoint dict_get {A : Type} (key : string) (kvs : list (string * A)) : option A :=
  match kvs with
  | [] => None
  | (k, v) :: kvs' => if String.eqb k key then Some v else dict_get key kvs'
  end.

(** [str(z)] of a Python int. *)
Definition str_of_int (z : Z) : string := NilZero.string_of_int (Z.to_int z).

End Python.

Import Python.

Declare Scope py_scope.
Notation "x <- m ;; k" := (bind m (fun x => k))
  (at level 61, m at next level, right associativity) : py_scope.
Open Scope py_scope.
Open Scope string_scope.
Open Scope list_scope.

(** ** pandas: the table operations the two trainers use *)

Module Pandas.

(** A cell of a table.  A missing value is [NaN]; numbers are carried as
    integers (the fractional part of an age plays no role in what the cells do
    with the table before handing it to the classifier). *)
Inductive cell : Type :=
| NaN
| Num (z : Z)
| Str (s : string)
| Boolean (b : bool).

Definition isna (c : cell) : bool :=
  match c with
  | NaN => true
  | _ => false
  end.

(** Equality as [duplicated] and the factorisation behind [get_dummies] see
    it: two missing values are the same value. *)
Definition cell_eqb (a b : cell) : bool :=
  match a, b with
  | NaN, NaN => true
  | Num x, Num y => Z.eqb x y
  | Str x, Str y => String.eqb x y
  | Boolean x, Boolean y => Bool.eqb x y
  | _, _ => false
  end.

Definition row_eqb (r1 r2 : list cell) : bool := list_eqb cell_eqb r1 r2.

(** A table: the column labels, and the records in order, each holding one
    cell per column. *)
Record DataFrame : Type := mkDataFrame {
  columns : list string;
  rows : list (list cell)
}.

(** Position of a column label. *)
Fixpoint get_loc (cols : list string) (label : string) : result nat :=
  match cols with
  | [] => Raise (KeyError label)
  | c :: cols' =>
      if String.eqb c label then Ok 0%nat
      else i <- get_loc cols' label ;; Ok (S i)
  end.

(** [df[label]]: one column as a series. *)
Definition getitem (df : DataFrame) (label : string) : result (list cell) :=
  i <- get_loc (columns df) label ;;
  Ok (map (fun r => nth i r NaN) (rows df)).

(** [df[[l1, ..., ln]]]: the listed columns, in the listed order. *)
Definition getitem_columns (df : DataFrame) (labels : list string)
  : result DataFrame :=
  locs <- traverse (get_loc (columns df)) labels ;;
  Ok (mkDataFrame labels
        (map (fun r => map (fun i => nth i r NaN) locs) (rows df))).

(** Removes the element at a position. *)
Fixpoint remove_at {A : Type} (i : nat) (xs : list A) : list A :=
  match xs, i with
  | [], _ => []
  | _ :: xs', O => xs'
  | x :: xs', S i' => x :: remove_at i' xs'
  end.

(** [df.drop(label, axis=1)]. *)
Definition drop (df : DataFrame) (label : string) : result DataFrame :=
  i <- get_loc (columns df) label ;;
  Ok (mkDataFrame (remove_at i (columns df)) (map (remove_at i) (rows df))).

(** [df.dropna()] with its defaults ([axis=0], [how='any']): a record stays
    when none of its cells is missing. *)
Definition row_complete (r : list cell) : bool := forallb (fun c => negb (isna c)) r.

Definition dropna (df : DataFrame) : DataFrame :=
  mkDataFrame (columns df) (filter row_complete (rows df)).

(** [df.duplicated()] with its default [keep='first']: a record is marked
    when an equal record stands before it. *)
Fixpoint duplicated_from (seen rs : list (list cell)) : list bool :=
  match rs with
  | [] => []
  | r :: rs' => existsb (row_eqb r) seen :: duplicated_from (r :: seen) rs'
  end.

Definition duplicated (df : DataFrame) : list bool :=
  duplicated_from [] (rows df).

(** [rs[~mask]]. *)
Fixpoint unmasked {A : Type} (rs : list A) (mask : list bool) : list A :=
  match rs, mask with
  | r :: rs', m :: mask' =>
      if m then unmasked rs' mask' else r :: unmasked rs' mask'
  | _, _ => []
  end.

(** [df.drop_duplicates()]: every column is compared. *)
Definition drop_duplicates (df : DataFrame) : DataFrame :=
  mkDataFrame (columns df) (unmasked (rows df) (duplicated df)).

(** *** One-hot encoding *)

(** The distinct present values of a column, in order of first appearance:
    a missing value is no category. *)
Fixpoint unique_from (seen vals : list cell) : list cell :=
  match vals with
  | [] => []
  | v :: vs =>
      if isna v || existsb (cell_eqb v) seen then unique_from seen vs
      else v :: unique_from (v :: seen) vs
  end.

Definition same_kind (a b : cell) : bool :=
  match a, b with
  | NaN, NaN | Num _, Num _ | Str _, Str _ | Boolean _, Boolean _ => true
  | _, _ => false
  end.

(** Python's order on values of one kind: numbers by value, strings by code
    point, [False] before [True]. *)
Definition cell_leb (a b : cell) : bool :=
  match a, b with
  | Num x, Num y => Z.leb x y
  | Str x, Str y => String.leb x y
  | Boolean x, Boolean y => implb x y
  | _, _ => true
  end.

Definition sort_cells (cs : list cell) : list cell := sorted cell_leb cs.

Definition orderable (cs : list cell) : bool :=
  match cs with
  | [] => true
  | c :: cs' => forallb (same_kind c) cs'
  end.

(** The categories of a column: its distinct present values, sorted when
    they can be ordered, otherwise in order of appearance. *)
Definition categories (vals : list cell) : list cell :=
  let u := unique_from [] vals in
  if orderable u then sort_cells u else u.

(** [str(level)], as it enters an indicator column's label. *)
Definition cell_str (c : cell) : string :=
  match c with
  | NaN => "nan"
  | Num z => str_of_int z
  | Str s => s
  | Boolean true => "True"
  | Boolean false => "False"
  end.

(** A column of numbers with a missing value is held as floats (the reader
    of the CSV file has no integer to stand for a missing value). *)
Definition held_as_float (vals : list cell) : bool :=
  existsb isna vals
  && forallb (fun c => match c with NaN | Num _ => true | _ => false end) vals.

(** [str(level)] for a level of a column: a number held as a float prints
    with its fractional part (positional notation, as Python prints floats
    below [1e16]). *)
Definition level_str (as_float : bool) (c : cell) : string :=
  match c with
  | Num z => if as_float then (str_of_int z ++ ".0")%string else str_of_int z
  | _ => cell_str c
  end.

(** One column to encode: where it stands, its label, whether it is held
    as floats, its categories. *)
Record encoding : Type := mkEncoding {
  enc_loc : nat;
  enc_prefix : string;
  enc_float : bool;
  enc_levels : list cell
}.

Definition column_encoding (i : nat) (label : string) (vals : list cell)
  : encoding :=
  mkEncoding i label (held_as_float vals) (categories vals).

(** Labels [prefix_level], one per category. *)
Definition dummy_labels (e : encoding) : list string :=
  map (fun l => (enc_prefix e ++ "_" ++ level_str (enc_float e) l)%string)
    (enc_levels e).

(** The indicator cells of one record: the category the record holds is set,
    the others are clear; a record whose value is missing (the default
    [dummy_na=False]) has every indicator clear. *)
Definition indicators (e : encoding) (r : list cell) : list cell :=
  map (fun l => Boolean (cell_eqb (nth (enc_loc e) r NaN) l)) (enc_levels e).

(** The cells of a record outside the encoded positions, in order. *)
Definition keep_others {A : Type} (locs : list nat) (xs : list A) : list A :=
  map snd
    (filter (fun p => negb (existsb (Nat.eqb (fst p)) locs))
       (combine (seq 0 (List.length xs)) xs)).

Definition encoding_of (df : DataFrame) (label : string) : result encoding :=
  i <- get_loc (columns df) label ;;
  Ok (column_encoding i label (map (fun r => nth i r NaN) (rows df))).

(** [pd.get_dummies(df, columns=labels)]: the columns that are not encoded
    come first, in their order; then, for each listed column in the listed
    order, its indicator columns in the order of its categories. *)
Definition get_dummies (df : DataFrame) (labels : list string)
  : result DataFrame :=
  encs <- traverse (encoding_of df) labels ;;
  let locs := map enc_loc encs in
  Ok (mkDataFrame
        (keep_others locs (columns df) ++ flat_map dummy_labels encs)
        (map (fun r => keep_others locs r ++ flat_map (fun e => indicators e r) encs)
           (rows df))).

(** *** Building a table from a dict of columns *)

(** [pd.DataFrame({label: values, ...})]: columns in the dict's order; the
    value lists must have one length. *)
Definition from_dict (d : list (string * list cell)) : result DataFrame :=
  match d with
  | [] => Ok (mkDataFrame [] [])
  | (_, vs) :: _ =>
      let n := List.length vs in
      if forallb (fun kv => Nat.eqb (List.length (snd kv)) n) d
      then Ok (mkDataFrame (map fst d)
                 (map (fun i => map (fun kv => nth i (snd kv) NaN) d) (seq 0 n)))
      else Raise (ValueError "All arrays must be of the same length")
  end.

End Pandas.

Import Pandas.

(** ** scikit-learn: the estimators the notebook fits and queries *)

Module Sklearn.

(** *** Logistic regression *)

(** The logistic function.  Floating-point numbers are carried as reals. *)
Definition expit (d : R) : R := (1 / (1 + exp (- d)))%R.

Definition softmax (ds : list R) : list R :=
  let total := fold_right Rplus 0%R (map exp ds) in
  map (fun d => (exp d / total)%R) ds.

(** A fitted [LogisticRegression]: the class labels in the order of the
    probability columns, one coefficient row per decision (a single row when
    there are two classes), and the schema seen by [fit]. *)
Record LogisticRegression : Type := mkLogisticRegression {
  classes_ : list cell;
  coef_ : list (list R);
  intercept_ : list R;
  n_features_in_ : nat;
  feature_names_in_ : list string
}.

(** A numeric cell as a float. *)
Definition to_float (c : cell) : result R :=
  match c with
  | NaN => Raise (ValueError "Input contains NaN")
  | Num z => Ok (IZR z)
  | Boolean b => Ok (if b then 1%R else 0%R)
  | Str _ => Raise (ValueError "could not convert string to float")
  end.

Definition to_matrix (df : DataFrame) : result (list (list R)) :=
  traverse (traverse to_float) (rows df).

(** [np.unique(y)]: the sorted distinct labels. *)
Definition np_unique (y : list cell) : result (list cell) :=
  if existsb isna y then Raise (ValueError "Input y contains NaN")
  else
    let u := unique_from [] y in
    if orderable u then Ok (sort_cells u) else Raise TypeError.

Definition dot (w x : list R) : R :=
  fold_right Rplus 0%R (map (fun p => (fst p * snd p)%R) (combine w x)).

Definition decision_function (m : LogisticRegression) (x : list R) : list R :=
  map (fun wb => (dot (fst wb) x + snd wb)%R) (combine (coef_ m) (intercept_ m)).

(** The check every release makes: the sample has as many features as the
    samples [fit] saw. *)
Definition check_n_features (m : LogisticRegression) (x : list R) : result unit :=
  if Nat.eqb (List.length x) (n_features_in_ m) then Ok tt
  else Raise (ValueError "X has a different number of features than the estimator is expecting").

(** The check every release makes on a matrix handed to an estimator: at
    least one sample, and at least one feature. *)
Definition check_array (X : list (list R)) : result unit :=
  match X with
  | [] => Raise (ValueError "Found array with 0 sample(s) while a minimum of 1 is required")
  | x :: _ =>
      if Nat.eqb (List.length x) 0 then
        Raise (ValueError "Found array with 0 feature(s) while a minimum of 1 is required")
      else Ok tt
  end.

(** The check of the releases that record column labels at [fit]: a table
    handed to an estimator that recorded labels must carry the same labels
    in the same order.  An estimator fitted on a bare matrix recorded none
    ([feature_names_in_] is empty): a table handed to it draws a warning
    only and is scored. *)
Definition check_feature_names (m : LogisticRegression) (df : DataFrame)
  : result unit :=
  match feature_names_in_ m with
  | [] => Ok tt
  | _ :: _ =>
      if list_eqb String.eqb (feature_names_in_ m) (columns df) then Ok tt
      else Raise (ValueError "The feature names should match those that were passed during fit")
  end.

(** One row of [predict_proba]: with a single decision [d] the row is
    [1 - expit d, expit d]; with one decision per class it is their softmax. *)
Definition proba_row (m : LogisticRegression) (x : list R) : result (list R) :=
  _ <- check_n_features m x ;;
  match decision_function m x with
  | [d] => Ok [(1 - expit d)%R; expit d]
  | ds => Ok (softmax ds)
  end.

(** [model.predict_proba(X)] on a numeric matrix. *)
Definition predict_proba (m : LogisticRegression) (X : list (list R))
  : result (list (list R)) :=
  _ <- check_array X ;;
  traverse (proba_row m) X.

(** [model.predict_proba(df)] on a table.  Whether the column labels are
    validated depends on the installed release, which the notebook does not
    pin; [names_validated] says which behaviour is in force. *)
Definition predict_proba_frame (names_validated : bool)
    (m : LogisticRegression) (df : DataFrame) : result (list (list R)) :=
  _ <- (if names_validated then check_feature_names m df else Ok tt) ;;
  X <- to_matrix df ;;
  predict_proba m X.

(** The probability a row of [predict_proba] gives to a class label. *)
Fixpoint class_probability (classes : list cell) (row : list R) (c : cell)
  : option R :=
  match classes, row with
  | k :: classes', p :: row' =>
      if cell_eqb k c then Some p else class_probability classes' row' c
  | _, _ => None
  end.

Section Fit.

(** The optimiser behind [fit] (L-BFGS on the regularised log-loss): from
    the samples, the labels and their classes to the coefficient rows and
    intercepts. *)
Variable solver : list (list R) -> list cell -> list cell -> list (list R) * list R.

(** [LogisticRegression(...).fit(X, y)] on a numeric matrix whose columns
    carry the labels [names]. *)
Definition fit_matrix (names : list string) (X : list (list R)) (y : list cell)
  : result LogisticRegression :=
  _ <- check_array X ;;
  if negb (Nat.eqb (List.length X) (List.length y)) then
    Raise (ValueError "Found input variables with inconsistent numbers of samples")
  else
    classes <- np_unique y ;;
    if Nat.ltb (List.length classes) 2 then
      Raise (ValueError "This solver needs samples of at least 2 classes in the data")
    else
      let wb := solver X y classes in
      Ok (mkLogisticRegression classes (fst wb) (snd wb)
            (match X with [] => 0%nat | x :: _ => List.length x end) names).

(** [model.fit(x, y)] on a table and a label column. *)
Definition fit (x : DataFrame) (y : list cell) : result LogisticRegression :=
  X <- to_matrix x ;;
  fit_matrix (columns x) X y.

End Fit.

(** *** Count vectorizer and pipeline *)

(** The parameters the notebook sets on a [CountVectorizer]; [stop_words]
    is the list the name ['english'] resolves to. *)
Record CountVectorizer : Type := mkCountVectorizer {
  ngram_range : nat * nat;
  stop_words : list string;
  min_df : nat
}.

(** [tokens[i:i+n]] for every [i] in [range(len(tokens) - n + 1)], for
    [n] of 1 or more. *)
Fixpoint windows (n : nat) (toks : list string) : list (list string) :=
  match toks with
  | [] => []
  | _ :: toks' =>
      if Nat.leb n (List.length toks) then firstn n toks :: windows n toks'
      else []
  end.

Section Vectorizer.

(** The first steps of the analyser, lower-casing and splitting on the
    token pattern, are the library's own. *)
Variable tokenize : string -> list string.

Variable cv : CountVectorizer.

Definition is_stop_word (w : string) : bool :=
  existsb (String.eqb w) (stop_words cv).

(** [_word_ngrams]: stop words leave the token stream first, then the
    n-grams of the remaining tokens are formed and joined by a space. *)
Definition word_ngrams (tokens : list string) : list string :=
  let original := filter (fun w => negb (is_stop_word w)) tokens in
  let min_n := fst (ngram_range cv) in
  let max_n := snd (ngram_range cv) in
  if Nat.eqb max_n 1 then original
  else
    let lo := if Nat.eqb min_n 1 then 2%nat else min_n in
    let hi := Nat.min (max_n + 1) (List.length original + 1) in
    (if Nat.eqb min_n 1 then original else [])
      ++ flat_map (fun n => map (String.concat " ") (windows n original))
           (seq lo (hi - lo)).

Definition analyze (doc : string) : list string := word_ngrams (tokenize doc).

Definition in_document (term doc : string) : bool :=
  existsb (String.eqb term) (analyze doc).

(** In how many documents a term occurs. *)
Definition document_frequency (docs : list string) (term : string) : nat :=
  List.length (filter (in_document term) docs).

(** [fit]: every term of every document, sorted; then the terms below
    [min_df] documents go (the default [max_df=1.0] removes none). *)
Definition fit_vocabulary (docs : list string) : result (list string) :=
  let terms := sorted String.leb (nodup string_dec (flat_map analyze docs)) in
  match terms with
  | [] => Raise (ValueError "empty vocabulary; perhaps the documents only contain stop words")
  | _ :: _ =>
      let n_doc := List.length docs in
      if Nat.ltb n_doc (min_df cv) then
        Raise (ValueError "max_df corresponds to < documents than min_df")
      else
        match
          filter (fun t => Nat.leb (min_df cv) (document_frequency docs t)
                           && Nat.leb (document_frequency docs t) n_doc) terms
        with
        | [] => Raise (ValueError "After pruning, no terms remain")
        | kept => Ok kept
        end
  end.

(** [transform]: the count of each vocabulary term in the document. *)
Definition transform (vocabulary : list string) (doc : string) : list R :=
  map (fun t => INR (count_occ string_dec (analyze doc) t)) vocabulary.

(** A raw document must be a string. *)
Definition to_document (c : cell) : result string :=
  match c with
  | Str s => Ok s
  | NaN => Raise (ValueError "np.nan is an invalid document, expected byte or unicode string")
  | _ => Raise AttributeError
  end.

(** A fitted two-step pipeline: the vocabulary the vectorizer learned and
    the classifier fitted on the counts. *)
Record Pipeline : Type := mkPipeline {
  vocabulary_ : list string;
  classifier : LogisticRegression
}.

Variable solver : list (list R) -> list cell -> list cell -> list (list R) * list R.

(** [make_pipeline(vectorizer, model).fit(x, y)]. *)
Definition pipeline_fit (x y : list cell) : result Pipeline :=
  docs <- traverse to_document x ;;
  vocabulary <- fit_vocabulary docs ;;
  clf <- fit_matrix solver [] (map (transform vocabulary) docs) y ;;
  Ok (mkPipeline vocabulary clf).

(** [pipe.predict_proba(texts)]: the fitted vectorizer, then the fitted
    classifier; nothing is fitted again. *)
Definition pipeline_predict_proba (pipe : Pipeline) (texts : list string)
  : result (list (list R)) :=
  predict_proba (classifier pipe) (map (transform (vocabulary_ pipe)) texts).

End Vectorizer.

End Sklearn.

(** ** ONNX runtime: what the last cell uses of an inference session *)

Module Onnx.

Inductive onnx_type : Type :=
| TensorString
| TensorInt64
| TensorFloat
| SeqMapInt64Float.

(** A declared input or output of a graph. *)
Record NodeArg : Type := mkNodeArg {
  name : string;
  type : onnx_type;
  shape : list (option nat)
}.

(** What running the graph yields for one output: the predicted labels, one
    class-to-probability map per sample, or a plain matrix of floats. *)
Inductive value : Type :=
| LabelTensor (labels : list Z)
| ProbabilitySeq (maps : list (list (Z * R)))
| FloatTensor (matrix : list (list R)).

(** A loaded graph: its declared inputs and outputs in declaration order,
    and the function it computes from the fed tensors (one per declared
    input) to the values of the declared outputs. *)
Record InferenceSession : Type := mkInferenceSession {
  get_inputs : list NodeArg;
  get_outputs : list NodeArg;
  graph : list (list (list string)) -> list value
}.

(** A class-probability output is told from a label output by its type. *)
Definition is_probability_output (o : NodeArg) : bool :=
  match type o with
  | SeqMapInt64Float | TensorFloat => true
  | _ => false
  end.

(** [session.run(output_names, input_feed)]: every declared input is read
    from the feed by name, the graph is executed, and the requested outputs
    are returned by name, in the order requested. *)
Definition run (s : InferenceSession) (output_names : list string)
    (input_feed : list (string * list (list string))) : result (list value) :=
  fed <- traverse
           (fun a => match dict_get (name a) input_feed with
                     | Some t => Ok t
                     | None => Raise (ValueError "Required inputs are missing from input feed")
                     end)
           (get_inputs s) ;;
  let computed := combine (map name (get_outputs s)) (graph s fed) in
  traverse
    (fun n => match dict_get n computed with
              | Some v => Ok v
              | None => Raise (ValueError "Invalid output name")
              end)
    output_names.

End Onnx.

(** ** Files: handles as the cells acquire and release them *)

Module Files.

Inductive mode : Type := ReadBinary | WriteBinary.

Record handle : Type := mkHandle {
  fd : nat;
  path : string;
  how : mode
}.

Section Store.

(** What a file holds; the serialised forms are opaque. *)
Variable bytes : Type.

(** The state the cells act on: the files, the handles that are open, the
    next descriptor, whether the device refuses further writes, and which
    payloads fit the write buffer of a file object. *)
Record fs : Type := mkFs {
  files : list (string * bytes);
  handles : list handle;
  next_fd : nat;
  device_full : bool;
  fits_buffer : bytes -> bool
}.

(** A cell's action: it returns or raises, and leaves a state either way. *)
Definition io (A : Type) : Type := fs -> result A * fs.

Definition throw {A : Type} (e : exn) : io A := fun st => (Raise e, st).

Definition lift {A : Type} (r : result A) : io A := fun st => (r, st).

Definition io_bind {A B : Type} (m : io A) (k : A -> io B) : io B :=
  fun st =>
    match m st with
    | (Ok a, st') => k a st'
    | (Raise e, st') => (Raise e, st')
    end.

(** [try: body finally: cleanup], as a [with] block runs its exit. *)
Definition finally {A : Type} (body : io A) (cleanup : fs -> fs) : io A :=
  fun st => let (r, st') := body st in (r, cleanup st').

Definition set_file (p : string) (b : option bytes) (fl : list (string * bytes))
  : list (string * bytes) :=
  let others := filter (fun kv => negb (String.eqb (fst kv) p)) fl in
  match b with
  | Some data => (p, data) :: others
  | None => others
  end.

(** [open(p, 'rb')] needs the file; [open(p, 'wb')] creates or truncates
    it.  Either registers a new open handle. *)
Definition open_ (p : string) (m : mode) : io handle :=
  fun st =>
    let h := mkHandle (next_fd st) p m in
    match m with
    | ReadBinary =>
        match dict_get p (files st) with
        | None => (Raise (OSError "No such file or directory"), st)
        | Some _ =>
            (Ok h, mkFs (files st) (h :: handles st) (S (next_fd st))
                     (device_full st) (fits_buffer st))
        end
    | WriteBinary =>
        (Ok h, mkFs (set_file p None (files st)) (h :: handles st)
                 (S (next_fd st)) (device_full st) (fits_buffer st))
    end.

Definition is_open (h : handle) (st : fs) : bool :=
  existsb (fun h' => Nat.eqb (fd h') (fd h)) (handles st).

(** [f.write(data)] on a file the program closes itself.  On a full
    device the error is raised at the write, or, when the payload stayed in
    the write buffer, at the close that follows; the model reports it at the
    write, which is the same outcome for a [with] block. *)
Definition write (h : handle) (data : bytes) : io unit :=
  fun st =>
    if negb (is_open h st) then (Raise (ValueError "I/O operation on closed file"), st)
    else if device_full st then (Raise (OSError "No space left on device"), st)
    else (Ok tt, mkFs (set_file (path h) (Some data) (files st)) (handles st)
                   (next_fd st) (device_full st) (fits_buffer st)).

(** [f.write(data)] on a file object the program never closes, so that
    only the interpreter's finaliser flushes it.  On a full device a payload
    that fits the write buffer stays there and the call returns; the
    finaliser then discards the error of the flush and the payload is lost.
    A larger payload is written through and the error is raised at the
    write. *)
Definition write_unflushed (h : handle) (data : bytes) : io unit :=
  fun st =>
    if negb (is_open h st) then (Raise (ValueError "I/O operation on closed file"), st)
    else if device_full st && fits_buffer st data then (Ok tt, st)
    else write h data st.

(** [f.read()]. *)
Definition read (h : handle) : io (option bytes) :=
  fun st =>
    if negb (is_open h st) then (Raise (ValueError "I/O operation on closed file"), st)
    else (Ok (dict_get (path h) (files st)), st).

(** [f.close()]. *)
Definition close (h : handle) (st : fs) : fs :=
  mkFs (files st)
    (filter (fun h' => negb (Nat.eqb (fd h') (fd h))) (handles st))
    (next_fd st) (device_full st) (fits_buffer st).

(** [with open(p, m) as f: body(f)]. *)
Definition with_open {A : Type} (p : string) (m : mode) (body : handle -> io A)
  : io A :=
  io_bind (open_ p m) (fun f => finally (body f) (close f)).

(** [call(open(p, m))]: the file object is an argument of the call and has
    no other name.  CPython, the interpreter the notebook records, counts
    references: when the call returns or raises, the object is unreachable
    and is finalised at once, which closes its descriptor. *)
Definition with_unnamed_file {A : Type} (p : string) (m : mode)
    (call : handle -> io A) : io A :=
  io_bind (open_ p m) (fun f => finally (call f) (close f)).

End Store.

End Files.

(** ** The notebook's cells *)

Module Notebook.

Import Sklearn Onnx Files.

(** What a pickle file of the notebook holds. *)
Inductive pickled : Type :=
| PickledModel (m : LogisticRegression)
| PickledPipeline (p : Pipeline).

Section Cells.

(** The libraries' parts that stay abstract: the optimiser (given its
    iteration limit), the tokeniser, the English stop list, the pickle
    format, the converter to ONNX. *)
Variable solver :
  nat -> list (list R) -> list cell -> list cell -> list (list R) * list R.
Variable tokenize : string -> list string.
Variable english : list string.
Variable bytes : Type.
Variable dumps : pickled -> bytes.
Variable loads : bytes -> result pickled.
Variable convert_sklearn : Pipeline -> result bytes.
Variable names_validated : bool.

(** [pickle.dump(obj, open(p, 'wb'))]: the cell keeps no name for the file
    object and does not close it; the interpreter finalises it when the call
    is over. *)
Definition pickle_dump (obj : pickled) (p : string) : io bytes unit :=
  with_unnamed_file p WriteBinary (fun f => write_unflushed f (dumps obj)).

(** [pickle.load(open(p, 'rb'))]: as for [pickle.dump], the file object is
    finalised when the call is over, whether the bytes load or not. *)
Definition pickle_load (p : string) : io bytes pickled :=
  with_unnamed_file p ReadBinary (fun f =>
  io_bind (read f) (fun data =>
  match data with
  | Some b => lift (loads b)
  | None => throw (OSError "No such file or directory")
  end)).

(** [CountVectorizer(ngram_range=(1, 2), stop_words='english', min_df=20)]. *)
Definition vectorizer : CountVectorizer := mkCountVectorizer (1, 2) english 20.

(** *** Cell 1: the tabular trainer *)

Definition tabular_frame (csv : DataFrame) : result DataFrame :=
  df <- getitem_columns csv ["Survived"; "Age"; "Sex"; "Pclass"] ;;
  df <- get_dummies df ["Sex"; "Pclass"] ;;
  Ok (dropna df).

Definition tabular_xy (csv : DataFrame) : result (DataFrame * list cell) :=
  df <- tabular_frame csv ;;
  x <- drop df "Survived" ;;
  y <- getitem df "Survived" ;;
  Ok (x, y).

(** [LogisticRegression(random_state=0)] keeps the default limit of 100
    iterations. *)
Definition tabular_model (csv : DataFrame) : result LogisticRegression :=
  xy <- tabular_xy csv ;;
  fit (solver 100) (fst xy) (snd xy).

Definition tabular_trainer (csv : DataFrame) : io bytes unit :=
  io_bind (lift (tabular_model csv)) (fun model =>
  pickle_dump (PickledModel model) "titanic.pkl").

(** *** Cell 2: the tabular predictor *)

Definition female : result DataFrame :=
  from_dict [("Age", [Num 30]); ("Sex_female", [Num 1]); ("Sex_male", [Num 0]);
             ("Pclass_1", [Num 1]); ("Pclass_2", [Num 0]); ("Pclass_3", [Num 0])].

(** [obj.predict_proba(df)] on whatever the pickle held: a pipeline would
    read the table as a sequence of documents, which are its column labels. *)
Definition predict_proba_table (obj : pickled) (df : DataFrame)
  : result (list (list R)) :=
  match obj with
  | PickledModel m => predict_proba_frame names_validated m df
  | PickledPipeline p =>
      pipeline_predict_proba tokenize vectorizer p (columns df)
  end.

(** [model.predict_proba(df)[0][1]]. *)
Definition probability_entry (obj : pickled) (df : DataFrame) : result R :=
  proba <- predict_proba_table obj df ;;
  row <- list_getitem proba 0 ;;
  list_getitem row 1.

(** [model.predict_proba(female)[0][1]]. *)
Definition tabular_probability (obj : pickled) : result R :=
  df <- female ;;
  probability_entry obj df.

Definition tabular_predictor : io bytes R :=
  io_bind (pickle_load "titanic.pkl") (fun model => lift (tabular_probability model)).

(** *** Cell 3: the text pipeline trainer *)

Definition text_xy (csv : DataFrame) : result (list cell * list cell) :=
  let df := drop_duplicates csv in
  x <- getitem df "Text" ;;
  y <- getitem df "Sentiment" ;;
  Ok (x, y).

(** [LogisticRegression(max_iter=1000, random_state=0)] behind the
    vectorizer. *)
Definition text_pipeline (csv : DataFrame) : result Pipeline :=
  xy <- text_xy csv ;;
  pipeline_fit tokenize vectorizer (solver 1000) (fst xy) (snd xy).

Definition text_trainer (csv : DataFrame) : io bytes unit :=
  io_bind (lift (text_pipeline csv)) (fun pipe =>
  pickle_dump (PickledPipeline pipe) "sentiment.pkl").

(** *** Cell 4: the text predictor, from the pickle *)

Definition query : string := "Great food and excellent service!".

(** [obj.predict_proba(texts)] on whatever the pickle held: a bare
    classifier rejects a list of strings. *)
Definition predict_proba_texts (obj : pickled) (texts : list string)
  : result (list (list R)) :=
  match obj with
  | PickledPipeline p => pipeline_predict_proba tokenize vectorizer p texts
  | PickledModel _ => Raise (ValueError "could not convert string to float")
  end.

(** [pipe.predict_proba([query])[0][1]]. *)
Definition text_probability (obj : pickled) : result R :=
  proba <- predict_proba_texts obj [query] ;;
  row <- list_getitem proba 0 ;;
  list_getitem row 1.

Definition text_predictor : io bytes R :=
  io_bind (pickle_load "sentiment.pkl") (fun pipe => lift (text_probability pipe)).

(** *** Cell 5: the pipeline saved as an ONNX file *)

Definition onnx_export (pipe : Pipeline) : io bytes unit :=
  io_bind (lift (convert_sklearn pipe)) (fun onnx =>
  with_open "sentiment.onnx" WriteBinary (fun f => write f onnx)).

(** *** Cell 6: the text predictor, from the ONNX file *)

(** [session.get_inputs()[0].name]. *)
Definition input_name (session : InferenceSession) : result string :=
  a <- list_getitem (get_inputs session) 0 ;; Ok (name a).

(** [session.get_outputs()[1].name]; the cell's comment reads
    [0 = predict, 1 = predict_proba]. *)
Definition label_name (session : InferenceSession) : result string :=
  a <- list_getitem (get_outputs session) 1 ;; Ok (name a).

(** [v[0][1]] on the value of the requested output. *)
Definition first_sample_entry_1 (v : value) : result R :=
  match v with
  | ProbabilitySeq maps =>
      m <- list_getitem maps 0 ;;
      match find (fun kv => Z.eqb (fst kv) 1) m with
      | Some kv => Ok (snd kv)
      | None => Raise (KeyError "1")
      end
  | FloatTensor matrix =>
      row <- list_getitem matrix 0 ;; list_getitem row 1
  | LabelTensor labels =>
      _ <- list_getitem labels 0 ;; Raise IndexError
  end.

(** [np.array(query).reshape(1, -1)], then
    [session.run([label_name], {input_name: input})[0][0][1]]. *)
Definition onnx_probability (session : InferenceSession) : result R :=
  i <- input_name session ;;
  l <- label_name session ;;
  let input := [[query]] in
  outs <- run session [l] [(i, input)] ;;
  v <- list_getitem outs 0 ;;
  first_sample_entry_1 v.

End Cells.

End Notebook.

(** ** Vocabulary for stating what the cells do *)

Module Statements.

Import Notebook.

(** The four columns cell 1 keeps, in its order. *)
Definition kept_columns : list string := ["Survived"; "Age"; "Sex"; "Pclass"].

(** In a record of the four kept columns: Survived and Age are present. *)
Definition survived_and_age_present (r : list cell) : bool :=
  negb (isna (nth 0 r NaN)) && negb (isna (nth 1 r NaN)).

(** The encodings [get_dummies] derives from the table of the four kept
    columns. *)
Definition sex_encoding (sel : DataFrame) : encoding :=
  column_encoding 2 "Sex" (map (fun r => nth 2 r NaN) (rows sel)).

Definition pclass_encoding (sel : DataFrame) : encoding :=
  column_encoding 3 "Pclass" (map (fun r => nth 3 r NaN) (rows sel)).

(** A record of the four kept columns after the encoding. *)
Definition encoded_record (sel : DataFrame) (r : list cell) : list cell :=
  [nth 0 r NaN; nth 1 r NaN]
    ++ indicators (sex_encoding sel) r ++ indicators (pclass_encoding sel) r.

(** The present values of a column are exactly the listed ones. *)
Definition holds_exactly (vals levels : list cell) : Prop :=
  forall c, In c vals /\ isna c = false <-> In c levels.

(** The string holds a space. *)
Fixpoint has_space (s : string) : bool :=
  match s with
  | EmptyString => false
  | String c s' => Ascii.eqb c " " || has_space s'
  end.

(** Descriptors are handed out in increasing order: every open handle has
    a descriptor below the next one. *)
Definition descriptors_fresh {bytes : Type} (st : Files.fs bytes) : Prop :=
  Forall (fun h => (Files.fd h < Files.next_fd st)%nat) (Files.handles st).

(** How many cells of a record are set indicators. *)
Definition set_count (cs : list cell) : nat :=
  List.length (filter (cell_eqb (Boolean true)) cs).

(** The column labels cell 2 writes by hand. *)
Definition hand_built_columns : list string :=
  ["Age"; "Sex_female"; "Sex_male"; "Pclass_1"; "Pclass_2"; "Pclass_3"].

End Statements.

(** ** Sample inputs *)

Module Samples.

(** A small review table with one record repeated. *)
Definition reviews_sample : DataFrame :=
  mkDataFrame ["Text"; "Sentiment"]
    [[Str "great food"; Num 1];
     [Str "slow service"; Num 0];
     [Str "great food"; Num 1]].

(** A passenger table with a further column; the first passenger's sex is
    not recorded, the last passenger's age is not. *)
Definition passengers_sample : DataFrame :=
  mkDataFrame ["PassengerId"; "Survived"; "Pclass"; "Sex"; "Age"]
    [[Num 1; Num 1; Num 1; NaN; Num 38];
     [Num 2; Num 0; Num 3; Str "male"; Num 22];
     [Num 3; Num 1; Num 2; Str "female"; Num 26];
     [Num 4; Num 0; Num 3; Str "male"; NaN]].

(** A passenger table in which every passenger is a man. *)
Definition men_only_sample : DataFrame :=
  mkDataFrame ["Survived"; "Age"; "Sex"; "Pclass"]
    [[Num 0; Num 22; Str "male"; Num 3];
     [Num 1; Num 40; Str "male"; Num 1];
     [Num 0; Num 35; Str "male"; Num 2]].

(** An estimator as cell 1 leaves it: six features under the hand-built
    labels, the classes 0 and 1. *)
Definition survival_model : Sklearn.LogisticRegression :=
  Sklearn.mkLogisticRegression [Num 0; Num 1]
    [[(3 / 100)%R; 1%R; (-1)%R; 1%R; 0%R; (-1)%R]] [0%R] 6
    ["Age"; "Sex_female"; "Sex_male"; "Pclass_1"; "Pclass_2"; "Pclass_3"].

(** A pipeline as cell 3 leaves it, on a two-term vocabulary. *)
Definition sentiment_pipeline : Sklearn.Pipeline :=
  Sklearn.mkPipeline ["excellent"; "great"]
    (Sklearn.mkLogisticRegression [Num 0; Num 1] [[1%R; 2%R]] [0%R] 2 []).

(** A tokeniser for the samples: the document is cut at its spaces. *)
Fixpoint split_at_spaces (word : string) (doc : string) : list string :=
  match doc with
  | EmptyString => match word with EmptyString => [] | _ => [word] end
  | String c doc' =>
      if Ascii.eqb c " " then
        match word with
        | EmptyString => split_at_spaces EmptyString doc'
        | _ => word :: split_at_spaces EmptyString doc'
        end
      else split_at_spaces (word ++ String c EmptyString)%string doc'
  end.

Definition words (doc : string) : list string := split_at_spaces EmptyString doc.

(** Twenty distinct reviews; each holds [great], ten hold [food]. *)
Definition twenty_reviews : DataFrame :=
  mkDataFrame ["Text"; "Sentiment"]
    (map (fun k => [Str ("great and " ++ k)%string; Num 1])
       ["a1"; "a2"; "a3"; "a4"; "a5"; "a6"; "a7"; "a8"; "a9"; "a10"]
     ++ map (fun k => [Str ("great food " ++ k)%string; Num 0])
          ["b1"; "b2"; "b3"; "b4"; "b5"; "b6"; "b7"; "b8"; "b9"; "b10"]).

(** An optimiser for the samples: it returns one row of zeros. *)
Definition zero_solver (max_iter : nat) (X : list (list R)) (y classes : list cell)
  : list (list R) * list R :=
  ([map (fun _ => 0%R) (match X with [] => [] | x :: _ => x end)], [0%R]).

(** The hand-built record with the two Sex columns written the other way
    round: the labels are those of the fitted schema, in another order. *)
Definition reordered_female : DataFrame :=
  mkDataFrame
    ["Age"; "Sex_male"; "Sex_female"; "Pclass_1"; "Pclass_2"; "Pclass_3"]
    [[Num 30; Num 0; Num 1; Num 1; Num 0; Num 0]].

(** The record of a man of the same age and class, in the fitted order. *)
Definition male_record : DataFrame :=
  mkDataFrame
    ["Age"; "Sex_female"; "Sex_male"; "Pclass_1"; "Pclass_2"; "Pclass_3"]
    [[Num 30; Num 0; Num 1; Num 1; Num 0; Num 0]].

(** The hand-built record without its last column. *)
Definition short_record : DataFrame :=
  mkDataFrame ["Age"; "Sex_female"; "Sex_male"; "Pclass_1"; "Pclass_2"]
    [[Num 30; Num 1; Num 0; Num 1; Num 0]].

(** A passenger table without the Age column. *)
Definition ageless_sample : DataFrame :=
  mkDataFrame ["Survived"; "Sex"; "Pclass"]
    [[Num 1; Str "female"; Num 1];
     [Num 0; Str "male"; Num 3]].

(** A passenger table in which every passenger survived. *)
Definition survivors_only_sample : DataFrame :=
  mkDataFrame ["Survived"; "Age"; "Sex"; "Pclass"]
    [[Num 1; Num 38; Str "female"; Num 1];
     [Num 1; Num 26; Str "female"; Num 3];
     [Num 1; Num 40; Str "male"; Num 1]].

(** The interface the converter gives the pipeline's graph: the declared
    string input, then the label output, then the probability output. *)
Definition converted_session (graph : list (list (list string)) -> list Onnx.value)
  : Onnx.InferenceSession :=
  Onnx.mkInferenceSession
    [Onnx.mkNodeArg "string_input" Onnx.TensorString [None; Some 1%nat]]
    [Onnx.mkNodeArg "output_label" Onnx.TensorInt64 [None];
     Onnx.mkNodeArg "output_probability" Onnx.SeqMapInt64Float []]
    graph.

(** A graph with the same two outputs declared the other way round. *)
Definition probability_first_session : Onnx.InferenceSession :=
  Onnx.mkInferenceSession
    [Onnx.mkNodeArg "string_input" Onnx.TensorString [None; Some 1%nat]]
    [Onnx.mkNodeArg "output_probability" Onnx.SeqMapInt64Float [];
     Onnx.mkNodeArg "output_label" Onnx.TensorInt64 [None]]
    (fun _ => [Onnx.ProbabilitySeq [[(0%Z, (1 / 8)%R); (1%Z, (7 / 8)%R)]];
               Onnx.LabelTensor [1%Z]]).

(** A store with no file and no open handle, holding pickled objects as
    they are. *)
Definition empty_store : Files.fs Notebook.pickled :=
  Files.mkFs [] [] 0 false (fun _ => true).

End Samples.

(** * Properties *)

Unset Implicit Arguments.

(** ** Facts about the Python helpers *)

Module PythonFacts.

Lemma bind_ok_inv {A B : Type} (m : result A) (k : A -> result B) (b : B) :
  bind m k = Ok b -> exists a, m = Ok a /\ k a = Ok b.
Proof.
  destruct m as [a | e]; simpl; intro H.
  - exists a. split; [reflexivity | exact H].
  - discriminate H.
Qed.

(** [bind_inv H as a Ha]: from [H : bind m k = Ok b], the value [a] that [m]
    returned, with [Ha : m = Ok a], leaving [H : k a = Ok b]. *)
Tactic Notation "bind_inv" hyp(H) "as" simple_intropattern(a) simple_intropattern(Ha) :=
  apply bind_ok_inv in H; destruct H as (a & Ha & H).

Lemma list_eqb_eq {A : Type} (eqb : A -> A -> bool)
    (eqb_eq : forall x y, eqb x y = true <-> x = y) (xs ys : list A) :
  list_eqb eqb xs ys = true <-> xs = ys.
Proof.
  revert ys.
  induction xs as [| x xs IH]; intros [| y ys]; simpl; split; intro H;
    try reflexivity; try discriminate.
  - apply andb_prop in H. destruct H as [Hx Hxs].
    apply eqb_eq in Hx. apply IH in Hxs. now subst.
  - injection H as -> ->. apply andb_true_intro. split.
    + now apply eqb_eq.
    + now apply IH.
Qed.

Lemma traverse_ok_length {A B : Type} (f : A -> result B) (xs : list A) (ys : list B) :
  traverse f xs = Ok ys -> List.length ys = List.length xs.
Proof.
  revert ys.
  induction xs as [| x xs IH]; simpl; intros ys H.
  - injection H as <-. reflexivity.
  - bind_inv H as y _.
    bind_inv H as ys' Hys'.
    injection H as <-. simpl. f_equal. now apply IH.
Qed.

Lemma traverse_ok_map {A B : Type} (f : A -> result B) (g : A -> B) (xs : list A) :
  (forall x, In x xs -> f x = Ok (g x)) -> traverse f xs = Ok (map g xs).
Proof.
  induction xs as [| x xs IH]; simpl; intro H.
  - reflexivity.
  - rewrite (H x (or_introl eq_refl)). simpl.
    rewrite IH by (intros; apply H; now right). reflexivity.
Qed.

Lemma insort_perm {A : Type} (leb : A -> A -> bool) (x : A) (xs : list A) :
  Permutation (insort leb x xs) (x :: xs).
Proof.
  induction xs as [| y xs IH]; simpl.
  - apply Permutation_refl.
  - destruct (leb x y).
    + apply Permutation_refl.
    + eapply perm_trans; [apply perm_skip, IH | apply perm_swap].
Qed.

Lemma sorted_perm {A : Type} (leb : A -> A -> bool) (xs : list A) :
  Permutation (sorted leb xs) xs.
Proof.
  induction xs as [| x xs IH]; simpl.
  - apply perm_nil.
  - eapply perm_trans; [apply insort_perm | now apply perm_skip].
Qed.

Lemma sorted_In {A : Type} (leb : A -> A -> bool) (xs : list A) (x : A) :
  In x (sorted leb xs) <-> In x xs.
Proof.
  split; apply Permutation_in;
    [apply sorted_perm | apply Permutation_sym, sorted_perm].
Qed.

End PythonFacts.

(** ** Facts about the table operations *)

Module PandasFacts.

Import PythonFacts.

Lemma cell_eqb_eq (a b : cell) : cell_eqb a b = true <-> a = b.
Proof.
  destruct a as [| x | x | x], b as [| y | y | y]; simpl;
    try (split; [discriminate | intro H; discriminate H]);
    try (split; reflexivity).
  - rewrite Z.eqb_eq. split; [now intros -> | now intros [= ->]].
  - rewrite String.eqb_eq. split; [now intros -> | now intros [= ->]].
  - rewrite Bool.eqb_true_iff. split; [now intros -> | now intros [= ->]].
Qed.

Lemma cell_eqb_refl (a : cell) : cell_eqb a a = true.
Proof. now apply cell_eqb_eq. Qed.

Lemma row_eqb_eq (r1 r2 : list cell) : row_eqb r1 r2 = true <-> r1 = r2.
Proof. apply list_eqb_eq, cell_eqb_eq. Qed.

Lemma seen_row_In (r : list cell) (seen : list (list cell)) :
  existsb (row_eqb r) seen = true <-> In r seen.
Proof.
  rewrite existsb_exists. split.
  - intros (r' & Hin & Heq). apply row_eqb_eq in Heq. now subst.
  - intro Hin. exists r. split; [exact Hin | now apply row_eqb_eq].
Qed.

(** What survives the mask of [duplicated]: the records not seen before,
    each once. *)
Lemma unmasked_In (rs seen : list (list cell)) (r : list cell) :
  In r (unmasked rs (duplicated_from seen rs)) <-> In r rs /\ ~ In r seen.
Proof.
  revert seen.
  induction rs as [| r0 rs IH]; intro seen; simpl.
  - tauto.
  - destruct (existsb (row_eqb r0) seen) eqn:Hseen.
    + apply seen_row_In in Hseen. rewrite IH. simpl. split.
      * intros (Hin & Hnot). split; [now right | tauto].
      * intros ([-> | Hin] & Hnot); [contradiction |].
        split; [exact Hin |]. intros [-> | H]; contradiction.
    + assert (Hnew : ~ In r0 seen).
      { intro H. apply seen_row_In in H. congruence. }
      simpl. rewrite IH. simpl. split.
      * intros [-> | (Hin & Hnot)]; [tauto |]. split; [now right | tauto].
      * intros ([-> | Hin] & Hnot); [now left |].
        destruct (row_eqb r0 r) eqn:Heq.
        -- apply row_eqb_eq in Heq. now left.
        -- right. split; [exact Hin |]. intros [-> | H]; [| contradiction].
           rewrite (proj2 (row_eqb_eq r r) eq_refl) in Heq. discriminate.
Qed.

Lemma unmasked_NoDup (rs seen : list (list cell)) :
  NoDup (unmasked rs (duplicated_from seen rs)).
Proof.
  revert seen.
  induction rs as [| r0 rs IH]; intro seen; simpl.
  - constructor.
  - destruct (existsb (row_eqb r0) seen).
    + apply IH.
    + constructor; [| apply IH].
      rewrite unmasked_In. simpl. tauto.
Qed.

Lemma drop_duplicates_NoDup (df : DataFrame) : NoDup (rows (drop_duplicates df)).
Proof. apply unmasked_NoDup. Qed.

Lemma drop_duplicates_In (df : DataFrame) (r : list cell) :
  In r (rows (drop_duplicates df)) <-> In r (rows df).
Proof.
  unfold drop_duplicates, duplicated. simpl. rewrite unmasked_In. simpl. tauto.
Qed.

Lemma combine_of_maps {A B C : Type} (f : A -> B) (g : A -> C) (xs : list A) :
  combine (map f xs) (map g xs) = map (fun a => (f a, g a)) xs.
Proof.
  induction xs as [| a xs IH]; simpl; [reflexivity | now rewrite IH].
Qed.

(** A projection that tells the records of a table apart maps the
    deduplicated table to a list without repetition, with the same members
    as the projection of the whole table. *)
Lemma projection_of_drop_duplicates {A : Type} (f : list cell -> A) (df : DataFrame) :
  (forall r1 r2, In r1 (rows df) -> In r2 (rows df) -> f r1 = f r2 -> r1 = r2) ->
  NoDup (map f (rows (drop_duplicates df)))
  /\ forall a, In a (map f (rows (drop_duplicates df))) <-> In a (map f (rows df)).
Proof.
  intro Hinj. split.
  - apply NoDup_map_NoDup_ForallPairs; [| apply drop_duplicates_NoDup].
    intros r1 r2 H1 H2. apply Hinj; now apply drop_duplicates_In.
  - intro a. rewrite !in_map_iff. split; intros (r & Hr & Hin); exists r;
      (split; [exact Hr | now apply drop_duplicates_In]).
Qed.

Lemma two_cells (r : list cell) :
  List.length r = 2%nat -> r = [nth 0 r NaN; nth 1 r NaN].
Proof.
  destruct r as [| a [| b [| c r]]]; simpl; intro H; try discriminate.
  reflexivity.
Qed.

Lemma seen_cell_In (c : cell) (seen : list cell) :
  existsb (cell_eqb c) seen = true <-> In c seen.
Proof.
  rewrite existsb_exists. split.
  - intros (c' & Hin & Heq). apply cell_eqb_eq in Heq. now subst.
  - intro Hin. exists c. split; [exact Hin | apply cell_eqb_refl].
Qed.

(** The distinct present values: each present value not seen before,
    once. *)
Lemma unique_from_In (vals seen : list cell) (c : cell) :
  In c (unique_from seen vals) <-> In c vals /\ isna c = false /\ ~ In c seen.
Proof.
  revert seen.
  induction vals as [| v vals IH]; intro seen; simpl.
  - tauto.
  - destruct (isna v) eqn:Hna; simpl.
    + rewrite IH. split; [tauto |].
      intros ([-> | Hin] & Hc & Hnot); [congruence | tauto].
    + destruct (existsb (cell_eqb v) seen) eqn:Hseen.
      * apply seen_cell_In in Hseen. rewrite IH. split; [tauto |].
        intros ([-> | Hin] & Hc & Hnot); [contradiction | tauto].
      * assert (Hnew : ~ In v seen).
        { intro H. apply seen_cell_In in H. congruence. }
        simpl. rewrite IH. simpl. split.
        -- intros [-> | (Hin & Hc & Hnot)]; tauto.
        -- intros ([-> | Hin] & Hc & Hnot); [now left |].
           destruct (cell_eqb v c) eqn:Heq.
           ++ apply cell_eqb_eq in Heq. now left.
           ++ right. repeat split; try assumption.
              intros [-> | H]; [| contradiction].
              rewrite cell_eqb_refl in Heq. discriminate.
Qed.

Lemma unique_from_NoDup (vals seen : list cell) : NoDup (unique_from seen vals).
Proof.
  revert seen.
  induction vals as [| v vals IH]; intro seen; simpl.
  - constructor.
  - destruct (isna v || existsb (cell_eqb v) seen).
    + apply IH.
    + constructor; [| apply IH].
      rewrite unique_from_In. simpl. tauto.
Qed.

(** The categories of a column are its present values. *)
Lemma categories_In (vals : list cell) (c : cell) :
  In c (categories vals) <-> In c vals /\ isna c = false.
Proof.
  unfold categories, sort_cells.
  destruct (orderable (unique_from [] vals)); rewrite ?sorted_In, unique_from_In;
    simpl; tauto.
Qed.

(** A record whose value is missing has every indicator clear. *)
Lemma indicators_of_missing (e : encoding) (r : list cell) :
  (forall l, In l (enc_levels e) -> isna l = false) ->
  nth (enc_loc e) r NaN = NaN ->
  indicators e r = map (fun _ => Boolean false) (enc_levels e).
Proof.
  intros Hlevels Hmissing. unfold indicators. rewrite Hmissing.
  apply map_ext_in. intros l Hl. apply Hlevels in Hl.
  destruct l; [discriminate Hl | reflexivity ..].
Qed.

End PandasFacts.

(** ** Cell 3: what reaches [fit] after [drop_duplicates] *)

Module TextTrainerFacts.

Import PythonFacts PandasFacts Notebook Samples.

(** C8.  For a review table made of the two columns Text and Sentiment, the
    trainer hands [fit] the Text and Sentiment columns of the deduplicated
    table: the (Text, Sentiment) pairs it passes contain no pair twice, and
    they are exactly the pairs that occur in the table, so one copy of each
    distinct record is kept. *)
Theorem text_trainer_deduplicates (csv : DataFrame) :
  columns csv = ["Text"; "Sentiment"] \/ columns csv = ["Sentiment"; "Text"] ->
  Forall (fun r => List.length r = 2%nat) (rows csv) ->
  exists x0 y0 x y,
    getitem csv "Text" = Ok x0 /\ getitem csv "Sentiment" = Ok y0 /\
    text_xy csv = Ok (x, y) /\
    NoDup (combine x y) /\
    forall p, In p (combine x y) <-> In p (combine x0 y0).
Proof.
  intros Hcols Hwidth.
  rewrite Forall_forall in Hwidth.
  destruct Hcols as [Hcols | Hcols].
  - exists (map (fun r => nth 0 r NaN) (rows csv)),
           (map (fun r => nth 1 r NaN) (rows csv)),
           (map (fun r => nth 0 r NaN) (rows (drop_duplicates csv))),
           (map (fun r => nth 1 r NaN) (rows (drop_duplicates csv))).
    unfold text_xy, getitem. cbn [columns drop_duplicates]. rewrite Hcols.
    repeat split; try reflexivity; rewrite ?combine_of_maps;
      apply (projection_of_drop_duplicates
               (fun r => (nth 0 r NaN, nth 1 r NaN)) csv);
      intros r1 r2 H1 H2 [= Ha Hb];
      rewrite (two_cells r1), (two_cells r2) by auto; congruence.
  - exists (map (fun r => nth 1 r NaN) (rows csv)),
           (map (fun r => nth 0 r NaN) (rows csv)),
           (map (fun r => nth 1 r NaN) (rows (drop_duplicates csv))),
           (map (fun r => nth 0 r NaN) (rows (drop_duplicates csv))).
    unfold text_xy, getitem. cbn [columns drop_duplicates]. rewrite Hcols.
    repeat split; try reflexivity; rewrite ?combine_of_maps;
      apply (projection_of_drop_duplicates
               (fun r => (nth 1 r NaN, nth 0 r NaN)) csv);
      intros r1 r2 H1 H2 [= Ha Hb];
      rewrite (two_cells r1), (two_cells r2) by auto; congruence.
Qed.

(** The theorem at the sample of three reviews, one of them repeated: two
    pairs reach [fit]. *)
Lemma text_trainer_deduplicates_witness :
  exists x y,
    text_xy reviews_sample = Ok (x, y) /\ NoDup (combine x y)
    /\ List.length x = 2%nat.
Proof.
  destruct (text_trainer_deduplicates reviews_sample) as (x0 & y0 & x & y & _ & _ & Hxy & Hnodup & _).
  - left. reflexivity.
  - repeat constructor.
  - exists x, y. split; [exact Hxy |]. split; [exact Hnodup |].
    vm_compute in Hxy. injection Hxy as <- _. reflexivity.
Defined.

End TextTrainerFacts.

(** ** Cell 1: the table that reaches [fit] *)

Module TabularTrainerFacts.

Import PythonFacts PandasFacts Notebook Statements Samples.

Lemma filter_of_map {A B : Type} (p : B -> bool) (f : A -> B) (xs : list A) :
  filter p (map f xs) = map f (filter (fun a => p (f a)) xs).
Proof.
  induction xs as [| a xs IH]; simpl; [reflexivity |].
  destruct (p (f a)); simpl; now rewrite IH.
Qed.

(** The selection of the four columns: every record has four cells. *)
Lemma selection_shape (csv sel : DataFrame) :
  getitem_columns csv kept_columns = Ok sel ->
  columns sel = kept_columns
  /\ Forall (fun r => List.length r = 4%nat) (rows sel).
Proof.
  unfold getitem_columns. intro H.
  bind_inv H as locs Hlocs.
  injection H as <-. split; [reflexivity |].
  apply traverse_ok_length in Hlocs. simpl in *.
  apply Forall_forall. intros r Hr.
  apply in_map_iff in Hr. destruct Hr as (r0 & <- & _).
  now rewrite length_map.
Qed.

Lemma indicators_present (e : encoding) (r : list cell) :
  row_complete (indicators e r) = true.
Proof.
  unfold row_complete, indicators.
  induction (enc_levels e) as [| l ls IH]; simpl; [reflexivity | exact IH].
Qed.

Lemma encoded_record_complete (sel : DataFrame) (r : list cell) :
  row_complete (encoded_record sel r) = survived_and_age_present r.
Proof.
  unfold encoded_record, survived_and_age_present, row_complete.
  cbn [app forallb]. rewrite forallb_app.
  fold (row_complete (indicators (sex_encoding sel) r)).
  fold (row_complete (indicators (pclass_encoding sel) r)).
  rewrite !indicators_present, !andb_true_r. reflexivity.
Qed.

(** [get_dummies] on the table of the four kept columns, spelled out. *)
Lemma get_dummies_of_selection (sel : DataFrame) :
  columns sel = kept_columns ->
  Forall (fun r => List.length r = 4%nat) (rows sel) ->
  get_dummies sel ["Sex"; "Pclass"]
  = Ok (mkDataFrame
          (["Survived"; "Age"] ++ dummy_labels (sex_encoding sel)
             ++ dummy_labels (pclass_encoding sel))
          (map (encoded_record sel) (rows sel))).
Proof.
  intros Hcols Hwidth.
  unfold get_dummies, encoding_of. rewrite Hcols. cbn [traverse kept_columns get_loc bind String.eqb Ascii.eqb Bool.eqb].
  simpl. rewrite app_nil_r. do 2 f_equal.
  apply map_ext_in. intros r Hr.
  rewrite Forall_forall in Hwidth. specialize (Hwidth r Hr).
  destruct r as [| a [| b [| c [| d [| ? ?]]]]]; try discriminate Hwidth.
  unfold encoded_record. simpl. now rewrite app_nil_r.
Qed.

(** The table cell 1 fits on: the encoded records whose Survived and Age
    are present, in the order of the input. *)
Lemma tabular_frame_of_selection (csv sel : DataFrame) :
  getitem_columns csv kept_columns = Ok sel ->
  tabular_frame csv
  = Ok (mkDataFrame
          (["Survived"; "Age"] ++ dummy_labels (sex_encoding sel)
             ++ dummy_labels (pclass_encoding sel))
          (map (encoded_record sel)
             (filter survived_and_age_present (rows sel)))).
Proof.
  intro Hsel. destruct (selection_shape _ _ Hsel) as (Hcols & Hwidth).
  unfold tabular_frame. fold kept_columns. rewrite Hsel. cbn [bind].
  rewrite (get_dummies_of_selection sel Hcols Hwidth). cbn [bind].
  unfold dropna. cbn [columns rows]. do 2 f_equal.
  rewrite filter_of_map. f_equal.
  apply filter_ext. intro r. apply encoded_record_complete.
Qed.

(** C2, as the code has it.  From the table of the four kept columns, cell
    1 fits on exactly the records whose Survived and Age are present, each
    encoded, in the order of the input.  A record whose Sex or Pclass is
    missing is not removed on that account: [get_dummies] runs before
    [dropna] and gives such a record indicator cells that are all clear. *)
Theorem tabular_trainer_keeps_survived_and_age_present (csv sel : DataFrame) :
  getitem_columns csv kept_columns = Ok sel ->
  exists out,
    tabular_frame csv = Ok out
    /\ rows out
       = map (encoded_record sel) (filter survived_and_age_present (rows sel))
    /\ (forall r, nth 2 r NaN = NaN ->
          indicators (sex_encoding sel) r
          = map (fun _ => Boolean false) (enc_levels (sex_encoding sel)))
    /\ (forall r, nth 3 r NaN = NaN ->
          indicators (pclass_encoding sel) r
          = map (fun _ => Boolean false) (enc_levels (pclass_encoding sel))).
Proof.
  intro Hsel. eexists. split; [apply (tabular_frame_of_selection _ _ Hsel) |].
  split; [reflexivity |].
  split; intros r Hr; apply indicators_of_missing; try exact Hr;
    intros l Hl; apply categories_In in Hl; tauto.
Qed.

(** The theorem at the sample of four passengers: the one without an age
    goes, the one without a sex stays. *)
Lemma tabular_trainer_keeps_survived_and_age_present_witness :
  exists sel out,
    getitem_columns passengers_sample kept_columns = Ok sel
    /\ tabular_frame passengers_sample = Ok out
    /\ List.length (rows out) = 3%nat.
Proof.
  eexists. 
  destruct (tabular_trainer_keeps_survived_and_age_present passengers_sample _ eq_refl)
    as (out & Hout & Hrows & _).
  exists out. split; [reflexivity |]. split; [exact Hout |].
  rewrite Hrows. reflexivity.
Defined.

(** C2, as stated, fails: the first record of the sample has no Sex, a
    retained column, and is among the records cell 1 fits on. *)
Lemma tabular_trainer_keeps_record_without_sex :
  exists sel out r,
    getitem_columns passengers_sample kept_columns = Ok sel
    /\ tabular_frame passengers_sample = Ok out
    /\ In r (rows sel)
    /\ row_complete r = false
    /\ In (encoded_record sel r) (rows out).
Proof.
  eexists. eexists. exists [Num 1; Num 38; NaN; Num 1].
  split; [reflexivity |]. split; [reflexivity |].
  split; [now left |]. split; [reflexivity |]. now left.
Qed.

End TabularTrainerFacts.

(** ** Facts about the estimators *)

Module SklearnFacts.

Import PythonFacts PandasFacts Sklearn.

Lemma expit_bounds (d : R) : (0 < expit d < 1)%R.
Proof.
  unfold expit, Rdiv. rewrite Rmult_1_l.
  pose proof (exp_pos (- d)) as He.
  split.
  - apply Rinv_0_lt_compat. lra.
  - rewrite <- Rinv_1 at 2. apply Rinv_lt_contravar; lra.
Qed.

Lemma expit_increasing (d1 d2 : R) : (d1 < d2)%R -> (expit d1 < expit d2)%R.
Proof.
  intro Hlt. unfold expit, Rdiv. rewrite !Rmult_1_l.
  pose proof (exp_pos (- d1)) as H1.
  pose proof (exp_pos (- d2)) as H2.
  assert (Hexp : (exp (- d2) < exp (- d1))%R) by (apply exp_increasing; lra).
  apply Rinv_lt_contravar; [| lra].
  apply Rmult_lt_0_compat; lra.
Qed.

Lemma traverse_Forall2 {A B : Type} (f : A -> result B) (xs : list A) (ys : list B) :
  traverse f xs = Ok ys -> Forall2 (fun x y => f x = Ok y) xs ys.
Proof.
  revert ys.
  induction xs as [| x xs IH]; simpl; intros ys H.
  - injection H as <-. constructor.
  - bind_inv H as y Hy.
    bind_inv H as ys' Hys'.
    injection H as <-. constructor; [exact Hy | now apply IH].
Qed.

(** What [fit] records about its input, whatever the optimiser returns. *)
Lemma fit_matrix_records solver names X y m :
  fit_matrix solver names X y = Ok m ->
  np_unique y = Ok (classes_ m)
  /\ (2 <= List.length (classes_ m))%nat
  /\ List.length X = List.length y
  /\ n_features_in_ m = match X with [] => 0%nat | x :: _ => List.length x end
  /\ feature_names_in_ m = names.
Proof.
  unfold fit_matrix.
  destruct (check_array X) as [[] | e]; cbn [bind]; [| discriminate].
  destruct (Nat.eqb (List.length X) (List.length y)) eqn:Hlen; simpl; [| discriminate].
  apply Nat.eqb_eq in Hlen.
  destruct (np_unique y) as [classes | e]; simpl; [| discriminate].
  destruct (Nat.ltb (List.length classes) 2) eqn:Hfew; [discriminate |].
  apply Nat.ltb_ge in Hfew.
  intros [= <-]. simpl. repeat split; assumption.
Qed.

Lemma np_unique_nil_inv (classes : list cell) :
  np_unique [] = Ok classes -> classes = [].
Proof. unfold np_unique. simpl. now intros [= <-]. Qed.

(** A table whose records all have [n] cells gives [fit] [n] features. *)
Lemma fit_records_schema solver (x : DataFrame) (y : list cell) m (n : nat) :
  Forall (fun r => List.length r = n) (rows x) ->
  fit solver x y = Ok m ->
  n_features_in_ m = n /\ feature_names_in_ m = columns x.
Proof.
  intros Hwidth Hfit. unfold fit in Hfit.
  bind_inv Hfit as X HX.
  apply fit_matrix_records in Hfit.
  destruct Hfit as (Hclasses & Htwo & Hlen & Hn & Hnames).
  split; [| exact Hnames].
  rewrite Hn. unfold to_matrix in HX. apply traverse_Forall2 in HX.
  destruct HX as [| r x0 rs X' Hr HX'].
  - simpl in Hlen. destruct y; [| discriminate Hlen].
    apply np_unique_nil_inv in Hclasses. rewrite Hclasses in Htwo.
    simpl in Htwo. lia.
  - apply traverse_ok_length in Hr. rewrite Hr.
    now inversion Hwidth.
Qed.

(** With a single decision, a row of [predict_proba] holds the
    probabilities of the first and of the second class. *)
Lemma proba_row_single_decision m (x w : list R) (b : R) :
  coef_ m = [w] -> intercept_ m = [b] ->
  List.length x = n_features_in_ m ->
  proba_row m x
  = Ok [(1 - expit (dot w x + b))%R; expit (dot w x + b)].
Proof.
  intros Hw Hb Hn. unfold proba_row, check_n_features, decision_function.
  rewrite Hn, Nat.eqb_refl, Hw, Hb. reflexivity.
Qed.

(** Whatever the shape of the coefficients, a sample of the right width
    gets a row of probabilities. *)
Lemma proba_row_ok m (x : list R) :
  List.length x = n_features_in_ m -> exists row, proba_row m x = Ok row.
Proof.
  intro Hn. unfold proba_row, check_n_features.
  rewrite Hn, Nat.eqb_refl. cbn [bind].
  destruct (decision_function m x) as [| d [| d' ds]]; eexists; reflexivity.
Qed.

Lemma check_feature_names_same m (df : DataFrame) :
  feature_names_in_ m = columns df -> check_feature_names m df = Ok tt.
Proof.
  intro H. unfold check_feature_names.
  rewrite (proj2 (list_eqb_eq String.eqb String.eqb_eq _ _) H).
  now destruct (feature_names_in_ m).
Qed.

(** An estimator that recorded labels rejects a table with other labels. *)
Lemma check_feature_names_differ m (df : DataFrame) :
  feature_names_in_ m <> [] ->
  columns df <> feature_names_in_ m ->
  check_feature_names m df
  = Raise (ValueError "The feature names should match those that were passed during fit").
Proof.
  intros Hrecorded Hdiff. unfold check_feature_names.
  destruct (feature_names_in_ m) as [| n names] eqn:Hnames; [contradiction |].
  destruct (list_eqb String.eqb (n :: names) (columns df)) eqn:Heq;
    [| reflexivity].
  apply (list_eqb_eq String.eqb String.eqb_eq) in Heq. congruence.
Qed.

(** A matrix with a sample of at least one feature passes [check_array]. *)
Lemma check_array_ok (x : list R) (X : list (list R)) :
  x <> [] -> check_array (x :: X) = Ok tt.
Proof. intro Hx. destruct x; [contradiction | reflexivity]. Qed.

End SklearnFacts.

(** ** Cells 1 and 2: the schema fitted and the schema written by hand *)

Module SchemaFacts.

Import PythonFacts PandasFacts SklearnFacts TabularTrainerFacts.
Import Sklearn Notebook Statements Samples.

Lemma permutation_of_three {A : Type} (a b c : A) (u : list A) :
  Permutation [a; b; c] u ->
  u = [a; b; c] \/ u = [a; c; b] \/ u = [b; a; c]
  \/ u = [b; c; a] \/ u = [c; a; b] \/ u = [c; b; a].
Proof.
  intro H.
  destruct (Permutation_vs_cons_inv (Permutation_sym H)) as (l1 & l2 & ->).
  apply Permutation_cons_app_inv in H.
  apply Permutation_length_2_inv in H.
  destruct H as [H | H];
    destruct l1 as [| p [| q [| ? ?]]]; simpl in H |- *;
    inversion H; subst; tauto.
Qed.

(** The distinct present values of a column that holds exactly the listed
    ones are the listed ones in some order. *)
Lemma unique_of_holds_exactly (vals levels : list cell) :
  holds_exactly vals levels -> NoDup levels ->
  Permutation levels (unique_from [] vals).
Proof.
  intros Hholds Hnodup.
  apply NoDup_Permutation; [exact Hnodup | apply unique_from_NoDup |].
  intro c. rewrite unique_from_In, <- (Hholds c). simpl. tauto.
Qed.

Lemma categories_female_male (vals : list cell) :
  holds_exactly vals [Str "female"; Str "male"] ->
  categories vals = [Str "female"; Str "male"].
Proof.
  intro Hholds.
  assert (Hperm : Permutation [Str "female"; Str "male"] (unique_from [] vals)).
  { apply unique_of_holds_exactly; [exact Hholds |].
    repeat constructor; simpl; intuition discriminate. }
  apply Permutation_length_2_inv in Hperm.
  unfold categories. destruct Hperm as [-> | ->]; reflexivity.
Qed.

Lemma categories_one_two_three (vals : list cell) :
  holds_exactly vals [Num 1; Num 2; Num 3] ->
  categories vals = [Num 1; Num 2; Num 3].
Proof.
  intro Hholds.
  assert (Hperm : Permutation [Num 1; Num 2; Num 3] (unique_from [] vals)).
  { apply unique_of_holds_exactly; [exact Hholds |].
    repeat constructor; simpl; intuition discriminate. }
  apply permutation_of_three in Hperm.
  unfold categories.
  destruct Hperm as [-> | [-> | [-> | [-> | [-> | ->]]]]]; reflexivity.
Qed.

Lemma held_as_float_without_missing (vals : list cell) :
  existsb isna vals = false -> held_as_float vals = false.
Proof. intro H. unfold held_as_float. now rewrite H. Qed.

Lemma female_frame :
  female = Ok (mkDataFrame hand_built_columns
                 [[Num 30; Num 1; Num 0; Num 1; Num 0; Num 0]]).
Proof. reflexivity. Qed.

(** The hand-built record goes through an estimator that saw six features
    under the hand-built labels, whether labels are validated or not. *)
Lemma hand_built_row_accepted (names_validated : bool) m (df : DataFrame) :
  female = Ok df ->
  n_features_in_ m = 6%nat ->
  feature_names_in_ m = hand_built_columns ->
  exists row, predict_proba_frame names_validated m df = Ok [row].
Proof.
  rewrite female_frame. intros [= <-] Hn Hnames.
  unfold predict_proba_frame.
  assert (Hcheck : (if names_validated
                    then check_feature_names m
                           (mkDataFrame hand_built_columns
                              [[Num 30; Num 1; Num 0; Num 1; Num 0; Num 0]])
                    else Ok tt) = Ok tt).
  { destruct names_validated; [| reflexivity].
    now apply check_feature_names_same. }
  rewrite Hcheck. cbn [bind to_matrix rows traverse to_float].
  unfold predict_proba. cbn [check_array List.length Nat.eqb bind traverse].
  destruct (proba_row_ok m [IZR 30; IZR 1; IZR 0; IZR 1; IZR 0; IZR 0]) as (row & ->).
  - now rewrite Hn.
  - exists row. reflexivity.
Qed.

(** The labels of the encoded table when Sex holds female and male and
    Pclass holds 1, 2 and 3 with none missing. *)
Lemma encoded_labels (sel : DataFrame) (sex pclass : list cell) :
  columns sel = kept_columns ->
  getitem sel "Sex" = Ok sex ->
  holds_exactly sex [Str "female"; Str "male"] ->
  getitem sel "Pclass" = Ok pclass ->
  holds_exactly pclass [Num 1; Num 2; Num 3] ->
  existsb isna pclass = false ->
  enc_levels (sex_encoding sel) = [Str "female"; Str "male"]
  /\ enc_levels (pclass_encoding sel) = [Num 1; Num 2; Num 3]
  /\ dummy_labels (sex_encoding sel) = ["Sex_female"; "Sex_male"]
  /\ dummy_labels (pclass_encoding sel) = ["Pclass_1"; "Pclass_2"; "Pclass_3"].
Proof.
  intros Hcols Hsex Hsexvals Hpclass Hpclassvals Hpresent.
  unfold getitem in Hsex, Hpclass. rewrite Hcols in Hsex, Hpclass.
  injection Hsex as <-. injection Hpclass as <-.
  unfold sex_encoding, pclass_encoding, dummy_labels, column_encoding.
  cbn [enc_levels enc_prefix enc_float].
  rewrite (categories_female_male _ Hsexvals).
  rewrite (categories_one_two_three _ Hpclassvals).
  rewrite (held_as_float_without_missing _ Hpresent).
  repeat split; reflexivity.
Qed.

(** C10, as the code has it.  When the Sex column of the training table
    holds exactly the values female and male (apart from missing ones) and
    the Pclass column holds exactly 1, 2 and 3 with none missing, the feature
    columns cell 1 fits on are, in order, the labels cell 2 writes by hand;
    an estimator fitted by cell 1 then accepts the hand-built record and
    returns one row of probabilities, whether or not the installed release
    validates column labels. *)
Theorem hand_built_row_matches_trained_schema
    (csv sel : DataFrame) (sex pclass : list cell) :
  getitem_columns csv kept_columns = Ok sel ->
  getitem sel "Sex" = Ok sex ->
  holds_exactly sex [Str "female"; Str "male"] ->
  getitem sel "Pclass" = Ok pclass ->
  holds_exactly pclass [Num 1; Num 2; Num 3] ->
  existsb isna pclass = false ->
  exists x y df,
    tabular_xy csv = Ok (x, y)
    /\ female = Ok df
    /\ columns x = columns df
    /\ forall solver m names_validated,
         tabular_model solver csv = Ok m ->
         exists row, predict_proba_frame names_validated m df = Ok [row].
Proof.
  intros Hsel Hsex Hsexvals Hpclass Hpclassvals Hpresent.
  destruct (selection_shape _ _ Hsel) as (Hcols & _).
  destruct (encoded_labels sel sex pclass Hcols Hsex Hsexvals Hpclass
              Hpclassvals Hpresent) as (Hl1 & Hl2 & Hd1 & Hd2).
  pose proof (tabular_frame_of_selection _ _ Hsel) as Hframe.
  rewrite Hd1, Hd2 in Hframe.
  assert (Hxy : exists x y,
             tabular_xy csv = Ok (x, y)
             /\ columns x = hand_built_columns
             /\ Forall (fun r => List.length r = 6%nat) (rows x)).
  { unfold tabular_xy. rewrite Hframe. cbn [bind].
    unfold drop, getitem.
    cbn [columns rows app get_loc String.eqb Ascii.eqb Bool.eqb bind remove_at].
    eexists. eexists. split; [reflexivity |]. split; [reflexivity |].
    cbn [rows]. apply Forall_forall. intros r Hr.
    apply in_map_iff in Hr. destruct Hr as (r1 & <- & Hr1).
    apply in_map_iff in Hr1. destruct Hr1 as (r0 & <- & _).
    unfold encoded_record, indicators. rewrite Hl1, Hl2. reflexivity. }
  destruct Hxy as (x & y & Hxy & Hx & Hwidth).
  exists x, y, (mkDataFrame hand_built_columns
                  [[Num 30; Num 1; Num 0; Num 1; Num 0; Num 0]]).
  split; [exact Hxy |]. split; [apply female_frame |].
  split; [exact Hx |].
  intros solver m names_validated Hfit.
  unfold tabular_model in Hfit. rewrite Hxy in Hfit. cbn [bind fst snd] in Hfit.
  apply (fit_records_schema _ _ _ _ 6%nat Hwidth) in Hfit.
  destruct Hfit as (Hn & Hnames). rewrite Hx in Hnames.
  apply (hand_built_row_accepted names_validated m _ female_frame Hn Hnames).
Qed.

(** The theorem at the sample of four passengers, which holds both sexes and
    the three classes. *)
Lemma hand_built_row_matches_trained_schema_witness :
  exists x y,
    tabular_xy passengers_sample = Ok (x, y)
    /\ columns x = hand_built_columns.
Proof.
  destruct (hand_built_row_matches_trained_schema passengers_sample
              (mkDataFrame kept_columns
                 [[Num 1; Num 38; NaN; Num 1];
                  [Num 0; Num 22; Str "male"; Num 3];
                  [Num 1; Num 26; Str "female"; Num 2];
                  [Num 0; NaN; Str "male"; Num 3]])
              [NaN; Str "male"; Str "female"; Str "male"]
              [Num 1; Num 3; Num 2; Num 3])
    as (x & y & df & Hxy & Hdf & Hcols & _).
  - reflexivity.
  - reflexivity.
  - intro c. simpl. split.
    + intros ([<- | [<- | [<- | [<- | []]]]] & Hc); try discriminate Hc; tauto.
    + intros [<- | [<- | []]]; split; try reflexivity; tauto.
  - reflexivity.
  - intro c. simpl. split.
    + intros ([<- | [<- | [<- | [<- | []]]]] & Hc); tauto.
    + intros [<- | [<- | [<- | []]]]; split; try reflexivity; tauto.
  - reflexivity.
  - exists x, y. split; [exact Hxy |].
    rewrite Hcols. rewrite female_frame in Hdf. now injection Hdf as <-.
Defined.

(** C10, as stated, fails: on a training table in which every passenger is
    a man, cell 1 fits on five feature columns, none of them Sex_female; the
    labels differ from the hand-built ones, and an estimator fitted on that
    table rejects the hand-built record under either validation. *)
Lemma men_only_table_breaks_hand_built_schema :
  exists x y df,
    tabular_xy men_only_sample = Ok (x, y)
    /\ female = Ok df
    /\ columns x <> columns df
    /\ forall solver m names_validated,
         tabular_model solver men_only_sample = Ok m ->
         exists e, predict_proba_frame names_validated m df = Raise e.
Proof.
  eexists. eexists. eexists.
  split; [reflexivity |]. split; [reflexivity |].
  split; [discriminate |].
  intros solver m names_validated Hfit.
  unfold tabular_model in Hfit.
  change (tabular_xy men_only_sample)
    with (Ok (mkDataFrame ["Age"; "Sex_male"; "Pclass_1"; "Pclass_2"; "Pclass_3"]
                [[Num 22; Boolean true; Boolean false; Boolean false; Boolean true];
                 [Num 40; Boolean true; Boolean true; Boolean false; Boolean false];
                 [Num 35; Boolean true; Boolean false; Boolean true; Boolean false]],
              [Num 0; Num 1; Num 0])) in Hfit.
  cbn [bind fst snd] in Hfit.
  apply (fit_records_schema _ _ _ _ 5%nat) in Hfit;
    [| repeat constructor].
  destruct Hfit as (Hn & Hnames).
  unfold predict_proba_frame.
  destruct names_validated.
  - unfold check_feature_names. rewrite Hnames. eexists. reflexivity.
  - cbn [bind to_matrix rows traverse to_float].
    unfold predict_proba, proba_row, check_n_features. cbn [traverse].
    rewrite Hn. eexists. reflexivity.
Qed.

End SchemaFacts.

(** ** Cells 2 and 4: the probability the predictors return *)

Module PredictorFacts.

Import PythonFacts PandasFacts SklearnFacts SchemaFacts.
Import Sklearn Notebook Statements Samples.

Lemma class_probability_second (negative positive : cell) (p0 p1 : R) :
  negative <> positive ->
  class_probability [negative; positive] [p0; p1] positive = Some p1.
Proof.
  intro Hdistinct. simpl.
  destruct (cell_eqb negative positive) eqn:Heq.
  - apply cell_eqb_eq in Heq. contradiction.
  - now rewrite cell_eqb_refl.
Qed.

Lemma expit_in_unit_interval (d : R) : (0 <= expit d <= 1)%R.
Proof. pose proof (expit_bounds d). lra. Qed.

Lemma dot_of_map {A : Type} (f : A -> R) (w : list R) (v : list A) :
  dot w (map f v)
  = fold_right Rplus 0%R (map (fun wt => (fst wt * f (snd wt))%R) (combine w v)).
Proof.
  unfold dot. revert v.
  induction w as [| a w IH]; intros [| t v]; cbn [map combine fold_right fst snd];
    try reflexivity.
  now rewrite IH.
Qed.

(** C6.  Both predictors take entry 1 of the first row of [predict_proba].
    For an estimator fitted on two classes, ordered negative then positive,
    with one coefficient row and one intercept, the row is [1 - p, p] where
    [p] is the logistic function of the decision value: for cell 2 the
    intercept plus the weights of the columns the hand-built record sets (30
    times the weight of Age, the weight of Sex_female, the weight of
    Pclass_1); for cell 4 the intercept plus, for each vocabulary term, its
    weight times the number of times the term occurs in the analysed query.
    Entry 1 is [p], the probability the row gives to the positive class; the
    negative class gets [1 - p]; and [p] lies between 0 and 1.  Cell 2 is
    stated for an estimator that saw the six hand-built columns, cell 4 for a
    pipeline whose classifier saw one feature per vocabulary term. *)
Theorem predictors_return_positive_class_probability
    (tokenize : string -> list string) (english : list string)
    (names_validated : bool)
    (m : LogisticRegression) (pipe : Pipeline)
    (negative positive negative' positive' : cell)
    (w_age w_female w_male w_first w_second w_third b : R)
    (w' : list R) (b' : R) :
  classes_ m = [negative; positive] ->
  negative <> positive ->
  coef_ m = [[w_age; w_female; w_male; w_first; w_second; w_third]] ->
  intercept_ m = [b] ->
  n_features_in_ m = 6%nat ->
  feature_names_in_ m = hand_built_columns ->
  classes_ (classifier pipe) = [negative'; positive'] ->
  negative' <> positive' ->
  coef_ (classifier pipe) = [w'] ->
  intercept_ (classifier pipe) = [b'] ->
  vocabulary_ pipe <> [] ->
  n_features_in_ (classifier pipe) = List.length (vocabulary_ pipe) ->
  let p := (1 / (1 + exp (- (30 * w_age + w_female + w_first + b))))%R in
  let counts :=
    map (fun wt =>
           (fst wt
            * INR (count_occ string_dec
                     (analyze tokenize (vectorizer english) query) (snd wt)))%R)
        (combine w' (vocabulary_ pipe)) in
  let p' := (1 / (1 + exp (- (fold_right Rplus 0%R counts + b'))))%R in
  (bind female
     (predict_proba_table tokenize english names_validated (PickledModel m))
   = Ok [[(1 - p)%R; p]]
   /\ tabular_probability tokenize english names_validated (PickledModel m) = Ok p
   /\ class_probability (classes_ m) [(1 - p)%R; p] positive = Some p
   /\ class_probability (classes_ m) [(1 - p)%R; p] negative = Some (1 - p)%R
   /\ (0 <= p <= 1)%R)
  /\ (predict_proba_texts tokenize english (PickledPipeline pipe) [query]
      = Ok [[(1 - p')%R; p']]
      /\ text_probability tokenize english (PickledPipeline pipe) = Ok p'
      /\ class_probability (classes_ (classifier pipe)) [(1 - p')%R; p'] positive'
         = Some p'
      /\ class_probability (classes_ (classifier pipe)) [(1 - p')%R; p'] negative'
         = Some (1 - p')%R
      /\ (0 <= p' <= 1)%R).
Proof.
  intros Hclasses Hdistinct Hw Hb Hn Hnames
         Hclasses' Hdistinct' Hw' Hb' Hvocabulary Hn' p counts p'.
  split.
  - set (x := [IZR 30; IZR 1; IZR 0; IZR 1; IZR 0; IZR 0]).
    assert (Hd : expit (dot [w_age; w_female; w_male; w_first; w_second; w_third] x
                        + b) = p).
    { unfold expit, p. do 4 f_equal. unfold dot, x. simpl. lra. }
    assert (Hproba :
      bind female
        (predict_proba_table tokenize english names_validated (PickledModel m))
      = Ok [[(1 - p)%R; p]]).
    { rewrite female_frame. cbn [bind predict_proba_table].
      unfold predict_proba_frame.
      rewrite check_feature_names_same by exact Hnames.
      assert (Hcheck : (if names_validated then Ok tt else Ok tt)
                       = @Ok unit tt) by now destruct names_validated.
      rewrite Hcheck. cbn [bind to_matrix rows traverse to_float].
      unfold predict_proba.
      cbn [check_array List.length Nat.eqb bind traverse]. fold x.
      rewrite (proba_row_single_decision m x _ b Hw Hb) by now rewrite Hn.
      rewrite Hd. reflexivity. }
    split; [exact Hproba |].
    split.
    + unfold tabular_probability, probability_entry.
      unfold bind in Hproba |- *.
      destruct female as [df | e]; [| discriminate Hproba].
      rewrite Hproba. reflexivity.
    + rewrite Hclasses. split; [now apply class_probability_second |].
      split.
      * simpl. now rewrite cell_eqb_refl.
      * rewrite <- Hd. apply expit_in_unit_interval.
  - set (x := transform tokenize (vectorizer english) (vocabulary_ pipe) query).
    assert (Hd : expit (dot w' x + b') = p').
    { unfold expit, p', counts, x, transform. now rewrite dot_of_map. }
    assert (Hx : x <> []).
    { unfold x, transform. intro Hnil. apply map_eq_nil in Hnil.
      contradiction. }
    assert (Hproba :
      predict_proba_texts tokenize english (PickledPipeline pipe) [query]
      = Ok [[(1 - p')%R; p']]).
    { cbn [predict_proba_texts]. unfold pipeline_predict_proba, predict_proba.
      cbn [map]. fold x. rewrite (check_array_ok x [] Hx).
      cbn [bind traverse].
      rewrite (proba_row_single_decision (classifier pipe) x w' b' Hw' Hb').
      - rewrite Hd. reflexivity.
      - rewrite Hn'. unfold x, transform. apply length_map. }
    split; [exact Hproba |].
    split.
    + unfold text_probability. rewrite Hproba. reflexivity.
    + rewrite Hclasses'. split; [now apply class_probability_second |].
      split.
      * simpl. now rewrite cell_eqb_refl.
      * rewrite <- Hd. apply expit_in_unit_interval.
Qed.

(** The theorem at the sample estimator and the sample pipeline: the woman
    of cell 2 gets the logistic function of 30 * 3/100 + 1 + 1 + 0, and the
    query of cell 4, in which the sample tokeniser finds the first
    vocabulary term once and the second never (it keeps the capital of
    Great), the logistic function of 1 * 1 + 2 * 0 + 0. *)
Lemma predictors_return_positive_class_probability_witness :
  tabular_probability words [] true (PickledModel survival_model)
  = Ok (1 / (1 + exp (- (30 * (3 / 100) + 1 + 1 + 0))))%R
  /\ text_probability words [] (PickledPipeline sentiment_pipeline)
     = Ok (1 / (1 + exp (- (1 * INR 1 + (2 * INR 0 + 0) + 0))))%R.
Proof.
  pose proof (predictors_return_positive_class_probability words [] true
                survival_model sentiment_pipeline
                (Num 0) (Num 1) (Num 0) (Num 1)
                (3 / 100)%R 1%R (-1)%R 1%R 0%R (-1)%R 0%R [1%R; 2%R] 0%R
                eq_refl ltac:(discriminate) eq_refl eq_refl eq_refl eq_refl
                eq_refl ltac:(discriminate) eq_refl eq_refl
                ltac:(discriminate) eq_refl) as H.
  cbv zeta in H.
  destruct H as ((_ & Hp & _) & (_ & Hp' & _)).
  split; [exact Hp | exact Hp'].
Defined.

(** C5, as the code has it.  Cell 2 makes no check of its own; what is
    rejected is what [predict_proba] rejects.  A one-record table whose number
    of cells differs from the number of features the estimator was fitted on
    raises a [ValueError] under every release.  A table whose labels differ
    from the fitted ones, in name or in order, raises a [ValueError] when the
    installed release validates labels and the estimator recorded labels at
    [fit] (as the estimator of cell 1, fitted on a table, does).  An
    estimator that recorded none is scored alike whether or not the release
    validates labels. *)
Theorem mismatched_row_rejection
    (tokenize : string -> list string) (english : list string)
    (m : LogisticRegression) (df : DataFrame) (r : list cell) (x : list R) :
  rows df = [r] ->
  traverse to_float r = Ok x ->
  (List.length r <> n_features_in_ m ->
   forall names_validated, exists msg,
     predict_proba_table tokenize english names_validated (PickledModel m) df
     = Raise (ValueError msg))
  /\ (feature_names_in_ m <> [] ->
      columns df <> feature_names_in_ m ->
      exists msg,
        predict_proba_table tokenize english true (PickledModel m) df
        = Raise (ValueError msg))
  /\ (feature_names_in_ m = [] ->
      predict_proba_table tokenize english true (PickledModel m) df
      = predict_proba_table tokenize english false (PickledModel m) df).
Proof.
  intros Hrows Hx.
  assert (Hcount : List.length r <> n_features_in_ m ->
                   exists msg,
                     (X <- to_matrix df ;; predict_proba m X)
                     = Raise (ValueError msg)).
  { intro Hdiff. unfold to_matrix. rewrite Hrows. cbn [traverse].
    rewrite Hx. cbn [bind]. unfold predict_proba, check_array.
    destruct (Nat.eqb (List.length x) 0); [eexists; reflexivity |].
    cbn [bind traverse]. unfold proba_row, check_n_features.
    rewrite (traverse_ok_length _ _ _ Hx).
    destruct (Nat.eqb (List.length r) (n_features_in_ m)) eqn:Heq.
    - apply Nat.eqb_eq in Heq. contradiction.
    - eexists. reflexivity. }
  split; [| split].
  - intros Hdiff names_validated. cbn [predict_proba_table].
    unfold predict_proba_frame. destruct names_validated.
    + destruct (check_feature_names m df) as [[] | e] eqn:Hcheck.
      * cbn [bind]. now apply Hcount.
      * unfold check_feature_names in Hcheck.
        destruct (feature_names_in_ m); [discriminate |].
        destruct (list_eqb String.eqb _ (columns df)); [discriminate |].
        injection Hcheck as <-. eexists. reflexivity.
    + cbn [bind]. now apply Hcount.
  - intros Hrecorded Hdiff. cbn [predict_proba_table].
    unfold predict_proba_frame.
    rewrite (check_feature_names_differ m df Hrecorded Hdiff).
    eexists. reflexivity.
  - intro Hnone. cbn [predict_proba_table]. unfold predict_proba_frame.
    unfold check_feature_names. rewrite Hnone. reflexivity.
Qed.

(** The theorem at the sample estimator: the record without its last
    column, and the record with two labels interchanged. *)
Lemma mismatched_row_rejection_witness :
  (exists msg,
     predict_proba_table words [] false (PickledModel survival_model) short_record
     = Raise (ValueError msg))
  /\ (exists msg,
        predict_proba_table words [] true (PickledModel survival_model)
          reordered_female
        = Raise (ValueError msg)).
Proof.
  split.
  - destruct (mismatched_row_rejection words [] survival_model short_record
                [Num 30; Num 1; Num 0; Num 1; Num 0]
                [IZR 30; IZR 1; IZR 0; IZR 1; IZR 0] eq_refl eq_refl)
      as (Hcount & _).
    apply Hcount. simpl. lia.
  - destruct (mismatched_row_rejection words [] survival_model reordered_female
                [Num 30; Num 0; Num 1; Num 1; Num 0; Num 0]
                [IZR 30; IZR 0; IZR 1; IZR 1; IZR 0; IZR 0] eq_refl eq_refl)
      as (_ & Hnames & _).
    apply Hnames; discriminate.
Defined.

(** C5, as stated, fails: where labels are not validated, the record whose
    two Sex columns are written the other way round is not rejected.  It is
    scored by position: the woman gets the probabilities of the record of a
    man, a lower probability than the hand-built record of cell 2 gets. *)
Lemma reordered_row_scored_by_position :
  columns reordered_female <> feature_names_in_ survival_model
  /\ predict_proba_table words [] false (PickledModel survival_model)
       reordered_female
     = predict_proba_table words [] false (PickledModel survival_model)
         male_record
  /\ exists p_reordered p_female,
       probability_entry words [] false (PickledModel survival_model)
         reordered_female = Ok p_reordered
       /\ tabular_probability words [] false (PickledModel survival_model)
          = Ok p_female
       /\ (p_reordered < p_female)%R.
Proof.
  split; [discriminate |]. split; [reflexivity |].
  eexists. eexists. split; [reflexivity |]. split; [reflexivity |].
  apply expit_increasing. unfold dot. simpl. lra.
Qed.

End PredictorFacts.

(** ** Cell 3: the vocabulary the vectorizer learns *)

Module VectorizerFacts.

Import PythonFacts PandasFacts SklearnFacts.
Import Sklearn Notebook Statements Samples.

Lemma windows_length (n : nat) (toks win : list string) :
  In win (windows n toks) -> List.length win = n.
Proof.
  induction toks as [| t toks IH]; simpl; [tauto |].
  destruct n as [| n'].
  - simpl. intros [<- | H]; [reflexivity | now apply IH].
  - match goal with
    | |- context [if ?c then _ else _] => destruct c eqn:Hle
    end; simpl; [| tauto].
    apply Nat.leb_le in Hle.
    intros [<- | H]; [| now apply IH].
    simpl. f_equal. apply firstn_length_le. simpl in Hle. lia.
Qed.

Lemma has_space_after (a s : string) :
  has_space (a ++ String " "%char s) = true.
Proof.
  induction a as [| c a IH]; simpl.
  - reflexivity.
  - rewrite IH. apply orb_true_r.
Qed.

(** Two tokens or more joined by spaces hold a space. *)
Lemma joined_has_space (win : list string) :
  (2 <= List.length win)%nat -> has_space (String.concat " " win) = true.
Proof.
  destruct win as [| a [| b win]]; simpl; intro H; try lia.
  apply has_space_after.
Qed.

Lemma is_stop_word_In (cv : CountVectorizer) (w : string) :
  is_stop_word cv w = true <-> In w (stop_words cv).
Proof.
  unfold is_stop_word. rewrite existsb_exists. split.
  - intros (w' & Hin & Heq). apply String.eqb_eq in Heq. now subst.
  - intro Hin. exists w. split; [exact Hin | apply String.eqb_refl].
Qed.

(** With unigrams and bigrams requested, a term of a document is a token
    that is no stop word, or holds a space. *)
Lemma analyzed_term tokenize (english : list string) (doc t : string) :
  In t (analyze tokenize (vectorizer english) doc) ->
  ~ In t english \/ has_space t = true.
Proof.
  unfold analyze, word_ngrams. cbn [vectorizer ngram_range fst snd Nat.eqb].
  rewrite in_app_iff. intros [H | H].
  - left. apply filter_In in H. destruct H as (_ & H).
    apply negb_true_iff in H. intro Hin.
    apply (is_stop_word_In (vectorizer english)) in Hin. congruence.
  - right. apply in_flat_map in H. destruct H as (n & Hn & H).
    apply in_seq in Hn.
    apply in_map_iff in H. destruct H as (win & <- & Hwin).
    apply windows_length in Hwin. apply joined_has_space. lia.
Qed.

Lemma in_document_In tokenize cv (t doc : string) :
  in_document tokenize cv t doc = true <-> In t (analyze tokenize cv doc).
Proof.
  unfold in_document. rewrite existsb_exists. split.
  - intros (t' & Hin & Heq). apply String.eqb_eq in Heq. now subst.
  - intro Hin. exists t. split; [exact Hin | apply String.eqb_refl].
Qed.

(** A term found in at least one document is a term of some document. *)
Lemma frequent_term_occurs tokenize cv (docs : list string) (t : string) :
  (1 <= document_frequency tokenize cv docs t)%nat ->
  exists doc, In doc docs /\ In t (analyze tokenize cv doc).
Proof.
  unfold document_frequency. intro H.
  destruct (filter (in_document tokenize cv t) docs) as [| doc rest] eqn:Hf;
    [simpl in H; lia |].
  assert (Hin : In doc (filter (in_document tokenize cv t) docs))
    by (rewrite Hf; now left).
  apply filter_In in Hin. destruct Hin as (Hdoc & Ht).
  exists doc. split; [exact Hdoc | now apply in_document_In].
Qed.

(** The learned vocabulary: the terms found in at least [min_df]
    documents. *)
Lemma fit_vocabulary_spec tokenize cv (docs vocabulary : list string) :
  (1 <= min_df cv)%nat ->
  fit_vocabulary tokenize cv docs = Ok vocabulary ->
  forall t, In t vocabulary
            <-> (min_df cv <= document_frequency tokenize cv docs t)%nat.
Proof.
  intros Hmin Hfit t. unfold fit_vocabulary in Hfit.
  set (terms := sorted String.leb (nodup string_dec (flat_map (analyze tokenize cv) docs))) in Hfit.
  assert (Hterms : forall u, In u terms
                             <-> exists doc, In doc docs /\ In u (analyze tokenize cv doc)).
  { intro u. unfold terms. rewrite sorted_In, nodup_In, in_flat_map. tauto. }
  destruct terms as [| t0 terms'] eqn:Hshape; [discriminate Hfit |].
  destruct (Nat.ltb (List.length docs) (min_df cv)); [discriminate Hfit |].
  set (keep := fun u =>
         Nat.leb (min_df cv) (document_frequency tokenize cv docs u)
         && Nat.leb (document_frequency tokenize cv docs u) (List.length docs)) in Hfit.
  assert (Hvoc : vocabulary = filter keep (t0 :: terms')).
  { destruct (filter keep (t0 :: terms')); [discriminate Hfit | now injection Hfit]. }
  rewrite Hvoc, filter_In, Hterms. unfold keep.
  rewrite andb_true_iff, !Nat.leb_le. split.
  - tauto.
  - intro Hdf. split; [apply frequent_term_occurs; lia |].
    split; [exact Hdf | apply filter_length_le].
Qed.

(** C7.  After cell 3 has fitted the pipeline on the documents of the
    deduplicated Text column, a term is in the learned vocabulary exactly
    when it occurs in at least 20 of those documents, and no term of the
    vocabulary is in the stop list: stop words leave the token stream before
    terms are formed, and a bigram holds a space, which no stop word does.
    The vocabulary is determined by the training documents alone. *)
Theorem vocabulary_exclusion solver (tokenize : string -> list string)
    (english : list string) (csv : DataFrame) (pipe : Pipeline) :
  (forall w, In w english -> has_space w = false) ->
  text_pipeline solver tokenize english csv = Ok pipe ->
  exists x y docs,
    text_xy csv = Ok (x, y)
    /\ traverse to_document x = Ok docs
    /\ (forall t, In t (vocabulary_ pipe)
                  <-> (20 <= document_frequency tokenize (vectorizer english) docs t)%nat)
    /\ (forall t, In t (vocabulary_ pipe) ->
                  exists doc, In doc docs
                              /\ In t (analyze tokenize (vectorizer english) doc))
    /\ (forall t, In t (vocabulary_ pipe) -> ~ In t english).
Proof.
  intros Hstop Hpipe. unfold text_pipeline in Hpipe.
  apply bind_ok_inv in Hpipe. destruct Hpipe as ((x & y) & Hxy & Hfit).
  unfold pipeline_fit in Hfit. cbn [fst snd] in Hfit.
  bind_inv Hfit as docs Hdocs.
  bind_inv Hfit as vocabulary Hvoc.
  bind_inv Hfit as clf _.
  injection Hfit as <-. cbn [vocabulary_].
  pose proof (fit_vocabulary_spec tokenize (vectorizer english) docs vocabulary) as Hspec.
  cbn [vectorizer min_df] in Hspec. specialize (Hspec ltac:(lia) Hvoc).
  assert (Hoccurs : forall t, In t vocabulary ->
            exists doc, In doc docs
                        /\ In t (analyze tokenize (vectorizer english) doc)).
  { intros t Ht. apply Hspec in Ht. apply frequent_term_occurs. lia. }
  exists x, y, docs.
  split; [exact Hxy |]. split; [exact Hdocs |]. split; [exact Hspec |].
  split; [exact Hoccurs |].
  intros t Ht Hin. destruct (Hoccurs t Ht) as (doc & _ & Hterm).
  apply analyzed_term in Hterm. destruct Hterm as [Hterm | Hterm]; [contradiction |].
  rewrite (Hstop t Hin) in Hterm. discriminate.
Qed.

(** The theorem at the sample of twenty reviews: [great] occurs in all of
    them and is the whole vocabulary. *)
Lemma vocabulary_exclusion_witness :
  exists pipe,
    text_pipeline zero_solver words ["and"] twenty_reviews = Ok pipe
    /\ vocabulary_ pipe = ["great"]
    /\ ~ In "great" ["and"].
Proof.
  assert (Hrun : exists pipe,
             text_pipeline zero_solver words ["and"] twenty_reviews = Ok pipe
             /\ vocabulary_ pipe = ["great"]).
  { eexists. split; [vm_compute; reflexivity | reflexivity]. }
  destruct Hrun as (pipe & Hpipe & Hvoc).
  destruct (vocabulary_exclusion zero_solver words ["and"] twenty_reviews pipe)
    as (x & y & docs & _ & _ & _ & _ & Hnot).
  - intros w [<- | []]. reflexivity.
  - exact Hpipe.
  - exists pipe. split; [exact Hpipe |]. split; [exact Hvoc |].
    apply Hnot. rewrite Hvoc. now left.
Defined.

End VectorizerFacts.

(** ** Cell 6: which output the ONNX predictor asks for *)

Module OnnxFacts.

Import PythonFacts Onnx Notebook Statements Samples.

(** C1, as the code has it.  The cell reads both names off the session, so
    neither is written into the cell; but it takes the output at the fixed
    position 1.  For a graph with one input and at least two outputs of
    distinct names, it requests the second declared output and reads
    entry 1 of the first sample of that output's value.  That output is the
    class-probability one when the graph declares the labels first and the
    probabilities second, as the cell's comment notes. *)
Theorem onnx_predictor_queries_second_declared_output
    (session : InferenceSession) (i o0 o1 : NodeArg) (others : list NodeArg) :
  get_inputs session = [i] ->
  get_outputs session = o0 :: o1 :: others ->
  name o0 <> name o1 ->
  input_name session = Ok (name i)
  /\ label_name session = Ok (name o1)
  /\ forall v0 v1 vs,
       graph session [[[query]]] = v0 :: v1 :: vs ->
       run session [name o1] [(name i, [[query]])] = Ok [v1]
       /\ onnx_probability session = first_sample_entry_1 v1.
Proof.
  intros Hin Hout Hnames.
  assert (Hi : input_name session = Ok (name i)).
  { unfold input_name. now rewrite Hin. }
  assert (Hl : label_name session = Ok (name o1)).
  { unfold label_name. now rewrite Hout. }
  split; [exact Hi |]. split; [exact Hl |].
  intros v0 v1 vs Hgraph.
  assert (Hrun : run session [name o1] [(name i, [[query]])] = Ok [v1]).
  { unfold run. rewrite Hin, Hout. cbn [traverse dict_get map].
    rewrite String.eqb_refl. cbn [bind]. rewrite Hgraph.
    cbn [combine dict_get traverse].
    destruct (String.eqb (name o0) (name o1)) eqn:Heq.
    - apply String.eqb_eq in Heq. contradiction.
    - rewrite String.eqb_refl. reflexivity. }
  split; [exact Hrun |].
  unfold onnx_probability. rewrite Hi, Hl. cbn [bind].
  rewrite Hrun. reflexivity.
Qed.

(** The theorem at a session with the interface the converter declares. *)
Lemma onnx_predictor_queries_second_declared_output_witness :
  label_name
    (converted_session
       (fun _ => [LabelTensor [1%Z];
                  ProbabilitySeq [[(0%Z, (1 / 8)%R); (1%Z, (7 / 8)%R)]]]))
  = Ok "output_probability"
  /\ onnx_probability
       (converted_session
          (fun _ => [LabelTensor [1%Z];
                     ProbabilitySeq [[(0%Z, (1 / 8)%R); (1%Z, (7 / 8)%R)]]]))
     = Ok (7 / 8)%R.
Proof.
  destruct (onnx_predictor_queries_second_declared_output
              (converted_session
                 (fun _ => [LabelTensor [1%Z];
                            ProbabilitySeq [[(0%Z, (1 / 8)%R); (1%Z, (7 / 8)%R)]]]))
              (mkNodeArg "string_input" TensorString [None; Some 1%nat])
              (mkNodeArg "output_label" TensorInt64 [None])
              (mkNodeArg "output_probability" SeqMapInt64Float [])
              [])
    as (_ & Hl & Hv).
  - reflexivity.
  - reflexivity.
  - discriminate.
  - split; [exact Hl |].
    destruct (Hv (LabelTensor [1%Z])
                (ProbabilitySeq [[(0%Z, (1 / 8)%R); (1%Z, (7 / 8)%R)]]) []
                eq_refl) as (_ & ->).
    reflexivity.
Defined.

(** C1, as stated, fails: when the graph declares the probabilities first,
    the cell asks for the label output, although a class-probability output
    is declared, and indexing the labels it gets back raises. *)
Lemma onnx_predictor_misses_probability_declared_first :
  label_name probability_first_session = Ok "output_label"
  /\ (exists o, In o (get_outputs probability_first_session)
                /\ is_probability_output o = true
                /\ name o = "output_probability")
  /\ run probability_first_session ["output_label"]
       [("string_input", [[query]])] = Ok [LabelTensor [1%Z]]
  /\ onnx_probability probability_first_session = Raise IndexError.
Proof.
  split; [reflexivity |]. split.
  - exists (mkNodeArg "output_probability" SeqMapInt64Float []).
    split; [now left | split; reflexivity].
  - split; reflexivity.
Qed.

End OnnxFacts.

(** ** Cells 1 to 5: the file handles *)

Module FileFacts.

Import PythonFacts Files Notebook Statements Samples.

Section Handles.

Variable bytes : Type.
Variable dumps : pickled -> bytes.
Variable loads : bytes -> result pickled.

Lemma is_open_head (h : handle) (fl : list (string * bytes)) (hs : list handle)
    (n : nat) (full : bool) (fits : bytes -> bool) :
  is_open h (mkFs fl (h :: hs) n full fits) = true.
Proof. unfold is_open. simpl. now rewrite Nat.eqb_refl. Qed.

(** Closing the handle on a fresh descriptor removes no other handle. *)
Lemma fresh_descriptor_kept (st : fs bytes) :
  descriptors_fresh st ->
  filter (fun h' => negb (Nat.eqb (fd h') (next_fd st))) (handles st)
  = handles st.
Proof.
  unfold descriptors_fresh. intro Hfresh.
  induction Hfresh as [| h hs Hh _ IH]; simpl; [reflexivity |].
  destruct (Nat.eqb (fd h) (next_fd st)) eqn:Heq.
  - apply Nat.eqb_eq in Heq. lia.
  - simpl. now rewrite IH.
Qed.






Lemma dict_get_truncated (p : string) (fl : list (string * bytes)) :
  dict_get p (set_file p None fl) = None.
Proof.
  unfold set_file. induction fl as [| [k v] fl IH]; simpl; [reflexivity |].
  destruct (String.eqb k p) eqn:Hkp; simpl; [exact IH |].
  now rewrite Hkp.
Qed.

(** [pickle.dump(obj, open(p, 'wb'))] on a full device.  A payload that
    fits the write buffer is lost without an error: the call returns, and
    the file is left as [open] truncated it.  A larger payload raises an
    [OSError] at the write. *)
Lemma pickle_dump_on_full_device (obj : pickled) (p : string) (st : fs bytes) :
  device_full st = true ->
  (fits_buffer st (dumps obj) = true ->
   fst (pickle_dump dumps obj p st) = Ok tt
   /\ dict_get p (files (snd (pickle_dump dumps obj p st))) = None)
  /\ (fits_buffer st (dumps obj) = false ->
      fst (pickle_dump dumps obj p st) = Raise (OSError "No space left on device")).
Proof.
  intro Hfull.
  unfold pickle_dump, with_unnamed_file, io_bind, open_, finally,
    write_unflushed, write.
  rewrite is_open_head. cbn [negb device_full fits_buffer]. rewrite Hfull.
  split; intros ->; cbn [andb fst snd close files]; [| reflexivity].
  split; [reflexivity | apply dict_get_truncated].
Qed.


(** [with open(p, 'wb') as f: f.write(data)] leaves the open handles as
    they were, whether the write goes through or not. *)
Lemma with_open_write_releases_handle (p : string) (data : bytes) (st : fs bytes) :
  descriptors_fresh st ->
  handles (snd (with_open p WriteBinary (fun f => write f data) st)) = handles st.
Proof.
  intro Hfresh.
  unfold with_open, io_bind, open_, finally, write.
  rewrite is_open_head. cbn [negb device_full].
  destruct (device_full st); cbn [close handles fd filter snd];
    rewrite Nat.eqb_refl; cbn [negb]; now apply fresh_descriptor_kept.
Qed.

End Handles.



(** The five cells run one after the other from a store with no file: each
    returns, no handle is open after any of them, and the three files are
    there at the end. *)
Lemma cells_in_sequence_leave_no_handle :
  let cell1 := tabular_trainer zero_solver (fun obj => obj) passengers_sample
                 empty_store in
  let cell2 := tabular_predictor words [] (fun b => Ok b) true (snd cell1) in
  let cell3 := text_trainer zero_solver words ["and"] (fun obj => obj)
                 twenty_reviews (snd cell2) in
  let cell4 := text_predictor words ["and"] (fun b => Ok b) (snd cell3) in
  let cell5 := onnx_export (fun pipe => Ok (PickledPipeline pipe))
                 sentiment_pipeline (snd cell4) in
  fst cell1 = Ok tt /\ handles (snd cell1) = []
  /\ (exists p, fst cell2 = Ok p) /\ handles (snd cell2) = []
  /\ fst cell3 = Ok tt /\ handles (snd cell3) = []
  /\ (exists p, fst cell4 = Ok p) /\ handles (snd cell4) = []
  /\ fst cell5 = Ok tt /\ handles (snd cell5) = []
  /\ map fst (files (snd cell5))
     = ["sentiment.onnx"; "sentiment.pkl"; "titanic.pkl"].
Proof.
  cbv zeta.
  repeat split; try (vm_compute; reflexivity); eexists; vm_compute; reflexivity.
Qed.

End FileFacts.

(** * Further properties of the cells *)

(** ** Cell 3: deduplication, once more *)

Module DedupFacts.

Import PythonFacts PandasFacts Notebook Statements Samples.

(** The mask of [duplicated] is clear on a list without repetition none of
    whose records was seen before. *)
Lemma unmasked_of_distinct (rs seen : list (list cell)) :
  NoDup rs -> (forall r, In r rs -> ~ In r seen) ->
  unmasked rs (duplicated_from seen rs) = rs.
Proof.
  revert seen.
  induction rs as [| r0 rs IH]; intros seen Hnodup Hfresh; simpl.
  - reflexivity.
  - inversion Hnodup as [| ? ? Hr0 Hrs]; subst.
    destruct (existsb (row_eqb r0) seen) eqn:Hseen.
    + apply seen_row_In in Hseen. exfalso.
      apply (Hfresh r0); [now left | exact Hseen].
    + f_equal. apply IH; [exact Hrs |].
      intros r Hr [<- | Hin]; [contradiction |].
      apply (Hfresh r); [now right | exact Hin].
Qed.

Lemma drop_duplicates_of_distinct (df : DataFrame) :
  NoDup (rows df) -> drop_duplicates df = df.
Proof.
  intro Hnodup. destruct df as [cols rs]. unfold drop_duplicates, duplicated.
  cbn [columns rows] in *. f_equal.
  apply unmasked_of_distinct; [exact Hnodup | intros r _ []].
Qed.

(** X1.  Deduplication is idempotent, and cell 3 hands [fit] the same
    Text and Sentiment columns whether or not the table it reads was
    deduplicated before. *)
Theorem deduplication_idempotent (csv : DataFrame) :
  drop_duplicates (drop_duplicates csv) = drop_duplicates csv
  /\ text_xy (drop_duplicates csv) = text_xy csv.
Proof.
  assert (H : drop_duplicates (drop_duplicates csv) = drop_duplicates csv)
    by (apply drop_duplicates_of_distinct, drop_duplicates_NoDup).
  split; [exact H |]. unfold text_xy. now rewrite H.
Qed.

End DedupFacts.

(** ** Cell 1: the shape of what [fit] receives, and when the cell fails *)

Module FrameFacts.

Import PythonFacts PandasFacts SklearnFacts TabularTrainerFacts.
Import Sklearn Files Notebook Statements Samples.

Lemma categories_NoDup (vals : list cell) : NoDup (categories vals).
Proof.
  unfold categories, sort_cells.
  destruct (orderable (unique_from [] vals)).
  - apply (Permutation_NoDup (Permutation_sym (sorted_perm cell_leb _))).
    apply unique_from_NoDup.
  - apply unique_from_NoDup.
Qed.

(** Among levels without repetition, a value sets one indicator when it is
    a level and none otherwise. *)
Lemma set_count_of_levels (v : cell) (levels : list cell) :
  NoDup levels ->
  set_count (map (fun l => Boolean (cell_eqb v l)) levels)
  = if existsb (cell_eqb v) levels then 1%nat else 0%nat.
Proof.
  unfold set_count.
  induction levels as [| l levels IH]; intro Hnodup; simpl.
  - reflexivity.
  - inversion Hnodup as [| ? ? Hl Hlevels]; subst.
    specialize (IH Hlevels).
    destruct (cell_eqb v l) eqn:Heq; simpl.
    + apply cell_eqb_eq in Heq. subst l.
      rewrite IH.
      destruct (existsb (cell_eqb v) levels) eqn:Hin; [| reflexivity].
      apply seen_cell_In in Hin. contradiction.
    + exact IH.
Qed.

(** X2.  The encoding of cell 1 is one-hot.  [get_dummies] turns every
    record of the table of the four kept columns into its Survived and Age
    cells followed by its Sex and its Pclass indicators; exactly one Sex
    indicator is set when the record's Sex is present and none when it is
    missing, and likewise for Pclass. *)
Theorem encoding_is_one_hot (csv sel : DataFrame) :
  getitem_columns csv kept_columns = Ok sel ->
  exists enc,
    get_dummies sel ["Sex"; "Pclass"] = Ok enc
    /\ rows enc = map (encoded_record sel) (rows sel)
    /\ forall r, In r (rows sel) ->
         set_count (indicators (sex_encoding sel) r)
         = (if isna (nth 2 r NaN) then 0%nat else 1%nat)
         /\ set_count (indicators (pclass_encoding sel) r)
            = (if isna (nth 3 r NaN) then 0%nat else 1%nat).
Proof.
  intro Hsel. destruct (selection_shape _ _ Hsel) as (Hcols & Hwidth).
  eexists. split; [apply (get_dummies_of_selection sel Hcols Hwidth) |].
  split; [reflexivity |].
  intros r Hr.
  assert (Hone : forall i label,
            set_count (indicators
                         (column_encoding i label
                            (map (fun r0 => nth i r0 NaN) (rows sel))) r)
            = if isna (nth i r NaN) then 0%nat else 1%nat).
  { intros i label. unfold indicators, column_encoding.
    cbn [enc_loc enc_levels].
    rewrite set_count_of_levels by apply categories_NoDup.
    destruct (existsb (cell_eqb (nth i r NaN))
                (categories (map (fun r0 => nth i r0 NaN) (rows sel)))) eqn:Hin.
    - apply seen_cell_In, categories_In in Hin.
      destruct Hin as (_ & ->). reflexivity.
    - destruct (isna (nth i r NaN)) eqn:Hna; [reflexivity |].
      assert (Hlevel : In (nth i r NaN)
                         (categories (map (fun r0 => nth i r0 NaN) (rows sel)))).
      { apply categories_In. split; [| exact Hna].
        apply in_map_iff. now exists r. }
      apply seen_cell_In in Hlevel. congruence. }
  split; apply Hone.
Qed.

(** The theorem at the sample of four passengers, on the record without a
    sex: no Sex indicator is set, one Pclass indicator is. *)
Lemma encoding_is_one_hot_witness :
  exists sel,
    getitem_columns passengers_sample kept_columns = Ok sel
    /\ set_count (indicators (sex_encoding sel) [Num 1; Num 38; NaN; Num 1])
       = 0%nat
    /\ set_count (indicators (pclass_encoding sel) [Num 1; Num 38; NaN; Num 1])
       = 1%nat.
Proof.
  eexists. split; [reflexivity |].
  destruct (encoding_is_one_hot passengers_sample _ eq_refl)
    as (enc & _ & _ & Hone).
  apply (Hone [Num 1; Num 38; NaN; Num 1]). now left.
Defined.

Lemma length_dummy_labels (e : encoding) :
  List.length (dummy_labels e) = List.length (enc_levels e).
Proof. unfold dummy_labels. apply length_map. Qed.

Lemma length_indicators (e : encoding) (r : list cell) :
  List.length (indicators e r) = List.length (enc_levels e).
Proof. unfold indicators. apply length_map. Qed.

(** X3.  What cell 1 hands [fit] is a rectangular table with nothing
    missing: every record of [x] has one cell per column and no missing
    cell, [y] has one label per record of [x] and no missing label. *)
Theorem fit_input_rectangular_and_complete
    (csv x : DataFrame) (y : list cell) :
  tabular_xy csv = Ok (x, y) ->
  Forall (fun r => List.length r = List.length (columns x)) (rows x)
  /\ Forall (fun r => row_complete r = true) (rows x)
  /\ List.length y = List.length (rows x)
  /\ existsb isna y = false.
Proof.
  intro Hxy. unfold tabular_xy in Hxy.
  bind_inv Hxy as df Hdf.
  assert (Hsel : exists sel, getitem_columns csv kept_columns = Ok sel).
  { unfold tabular_frame in Hdf. fold kept_columns in Hdf.
    destruct (getitem_columns csv kept_columns) as [sel | e];
      [now exists sel | discriminate Hdf]. }
  destruct Hsel as (sel & Hsel).
  rewrite (tabular_frame_of_selection _ _ Hsel) in Hdf. injection Hdf as <-.
  unfold drop, getitem in Hxy.
  cbn [columns rows app get_loc String.eqb Ascii.eqb Bool.eqb bind remove_at] in Hxy.
  injection Hxy as <- <-. cbn [columns rows].
  repeat split.
  - apply Forall_forall. intros r Hr.
    apply in_map_iff in Hr. destruct Hr as (r1 & <- & Hr1).
    apply in_map_iff in Hr1. destruct Hr1 as (r0 & <- & _).
    unfold encoded_record. cbn [app remove_at List.length].
    rewrite !length_app, !length_indicators, !length_dummy_labels. reflexivity.
  - apply Forall_forall. intros r Hr.
    apply in_map_iff in Hr. destruct Hr as (r1 & <- & Hr1).
    apply in_map_iff in Hr1. destruct Hr1 as (r0 & <- & Hr0).
    apply filter_In in Hr0. destruct Hr0 as (_ & Hpresent).
    unfold survived_and_age_present in Hpresent.
    apply andb_prop in Hpresent. destruct Hpresent as (_ & Hage).
    unfold encoded_record. cbn [app remove_at].
    unfold row_complete. cbn [forallb]. rewrite Hage, forallb_app.
    fold (row_complete (indicators (sex_encoding sel) r0)).
    fold (row_complete (indicators (pclass_encoding sel) r0)).
    now rewrite !indicators_present.
  - now rewrite !length_map.
  - rewrite map_map. apply not_true_is_false. intro Hna.
    apply existsb_exists in Hna. destruct Hna as (c & Hc & Hna).
    apply in_map_iff in Hc. destruct Hc as (r0 & <- & Hr0).
    apply filter_In in Hr0. destruct Hr0 as (_ & Hpresent).
    unfold survived_and_age_present in Hpresent.
    apply andb_prop in Hpresent. destruct Hpresent as (Hsurvived & _).
    unfold encoded_record in Hna. cbn [app nth] in Hna.
    rewrite Hna in Hsurvived. discriminate.
Qed.

(** The theorem at the sample of four passengers: three records of six
    cells reach [fit]. *)
Lemma fit_input_rectangular_and_complete_witness :
  exists x y,
    tabular_xy passengers_sample = Ok (x, y)
    /\ Forall (fun r => List.length r = 6%nat) (rows x)
    /\ List.length y = 3%nat.
Proof.
  assert (Hrun : exists x y,
             tabular_xy passengers_sample = Ok (x, y)
             /\ List.length (columns x) = 6%nat
             /\ List.length (rows x) = 3%nat).
  { eexists. eexists. split; [reflexivity |]. split; reflexivity. }
  destruct Hrun as (x & y & Hxy & Hcols & Hrows).
  destruct (fit_input_rectangular_and_complete passengers_sample x y Hxy)
    as (Hwidth & _ & Hlen & _).
  exists x, y. split; [exact Hxy |].
  rewrite Hcols in Hwidth. rewrite Hrows in Hlen. now split.
Defined.

End FrameFacts.

(** ** Cells 1 and 3: inputs on which the trainers fail *)

Module FailureFacts.

Import PythonFacts PandasFacts SklearnFacts TabularTrainerFacts.
Import Sklearn Files Notebook Statements Samples.

Lemma get_loc_cases (cols : list string) (label : string) :
  (In label cols /\ exists i, get_loc cols label = Ok i)
  \/ (~ In label cols /\ get_loc cols label = Raise (KeyError label)).
Proof.
  induction cols as [| c cols IH]; simpl.
  - right. split; [tauto | reflexivity].
  - destruct (String.eqb c label) eqn:Heq.
    + apply String.eqb_eq in Heq. left. split; [now left | now exists 0%nat].
    + apply String.eqb_neq in Heq.
      destruct IH as [(Hin & i & ->) | (Hnot & ->)].
      * left. split; [now right | now exists (S i)].
      * right. split; [tauto | reflexivity].
Qed.

(** A trainer whose fitting raises leaves the store as it found it. *)
Lemma trainer_raise_keeps_store {bytes A B : Type} (e : exn)
    (k : A -> io bytes B) (st : fs bytes) :
  io_bind (lift (Raise e)) k st = (Raise e, st).
Proof. reflexivity. Qed.

(** X4.  When the table lacks one of the columns Survived, Age, Sex,
    Pclass, cell 1 raises a [KeyError] at the column selection; nothing is
    fitted, no file is opened and none is written. *)
Theorem missing_column_raises_key_error (csv : DataFrame) (label : string) :
  In label kept_columns ->
  ~ In label (columns csv) ->
  exists key,
    tabular_frame csv = Raise (KeyError key)
    /\ (forall solver, tabular_model solver csv = Raise (KeyError key))
    /\ forall (bytes : Type) solver (dumps : pickled -> bytes) (st : fs bytes),
         tabular_trainer solver dumps csv st = (Raise (KeyError key), st).
Proof.
  intros Hkept Hmissing.
  assert (Hframe : exists key, tabular_frame csv = Raise (KeyError key)).
  { unfold tabular_frame, getitem_columns. cbn [traverse].
    destruct (get_loc_cases (columns csv) "Survived") as [(H0 & i0 & ->) | (_ & ->)];
      [| eexists; reflexivity].
    destruct (get_loc_cases (columns csv) "Age") as [(H1 & i1 & ->) | (_ & ->)];
      [| eexists; reflexivity].
    destruct (get_loc_cases (columns csv) "Sex") as [(H2 & i2 & ->) | (_ & ->)];
      [| eexists; reflexivity].
    destruct (get_loc_cases (columns csv) "Pclass") as [(H3 & i3 & ->) | (_ & ->)];
      [| eexists; reflexivity].
    exfalso. simpl in Hkept.
    destruct Hkept as [<- | [<- | [<- | [<- | []]]]]; contradiction. }
  destruct Hframe as (key & Hframe). exists key.
  assert (Hmodel : forall solver, tabular_model solver csv = Raise (KeyError key)).
  { intro solver. unfold tabular_model, tabular_xy. now rewrite Hframe. }
  split; [exact Hframe |]. split; [exact Hmodel |].
  intros bytes solver dumps st. unfold tabular_trainer.
  rewrite Hmodel. reflexivity.
Qed.

(** The theorem at the sample table without an Age column, on the empty
    store. *)
Lemma missing_column_raises_key_error_witness :
  exists key,
    tabular_trainer zero_solver (fun obj => obj) ageless_sample empty_store
    = (Raise (KeyError key), empty_store).
Proof.
  destruct (missing_column_raises_key_error ageless_sample "Age")
    as (key & _ & _ & Htrainer).
  - simpl. tauto.
  - simpl. intros [H | [H | [H | []]]]; discriminate H.
  - exists key. apply Htrainer.
Defined.

Lemma traverse_raise_inv {A B : Type} (P : exn -> Prop) (f : A -> result B)
    (xs : list A) (e : exn) :
  (forall x e', f x = Raise e' -> P e') ->
  traverse f xs = Raise e -> P e.
Proof.
  intro Hf. induction xs as [| x xs IH]; simpl; [discriminate |].
  destruct (f x) as [y | e'] eqn:Hx; simpl.
  - destruct (traverse f xs) as [ys | e''] eqn:Hxs; simpl; [discriminate |].
    intros [= <-]. now apply IH.
  - intros [= <-]. now apply (Hf x).
Qed.

(** The conversion of a table to floats raises nothing but [ValueError]. *)
Lemma to_matrix_raises_value_error (df : DataFrame) (e : exn) :
  to_matrix df = Raise e -> exists msg, e = ValueError msg.
Proof.
  unfold to_matrix.
  apply (traverse_raise_inv (fun e => exists msg, e = ValueError msg)).
  intros r e'.
  apply (traverse_raise_inv (fun e => exists msg, e = ValueError msg)).
  intros c e''. destruct c; simpl; intros [= <-]; eexists; reflexivity.
Qed.

(** The distinct values of a column that holds one value only. *)
Lemma unique_of_constant (vals : list cell) (c0 : cell) :
  (forall c, In c vals -> c = c0) ->
  unique_from [] vals = [] \/ unique_from [] vals = [c0].
Proof.
  intro Hconst.
  pose proof (unique_from_NoDup vals []) as Hnodup.
  assert (Hall : forall c, In c (unique_from [] vals) -> c = c0).
  { intros c Hc. apply unique_from_In in Hc. now apply Hconst. }
  destruct (unique_from [] vals) as [| a [| b u]].
  - now left.
  - right. f_equal. apply Hall. now left.
  - exfalso. inversion Hnodup as [| ? ? Ha _]; subst. apply Ha.
    rewrite (Hall a), (Hall b); simpl; tauto.
Qed.

(** X5.  When every record that reaches [fit] carries the same Survived
    label, cell 1 raises a [ValueError] at [fit]: a classifier needs two
    classes.  No file is opened and none is written. *)
Theorem single_class_raises_value_error
    (csv x : DataFrame) (y : list cell) (c0 : cell) :
  tabular_xy csv = Ok (x, y) ->
  (forall c, In c y -> c = c0) ->
  forall solver,
  exists msg,
    tabular_model solver csv = Raise (ValueError msg)
    /\ forall (bytes : Type) (dumps : pickled -> bytes) (st : fs bytes),
         tabular_trainer solver dumps csv st = (Raise (ValueError msg), st).
Proof.
  intros Hxy Hconst solver.
  assert (Hmodel : exists msg, tabular_model solver csv = Raise (ValueError msg)).
  { unfold tabular_model. rewrite Hxy. cbn [bind fst snd]. unfold fit.
    destruct (to_matrix x) as [X | e] eqn:HX; cbn [bind].
    - unfold fit_matrix.
      destruct (check_array X) as [[] | e] eqn:Harray; cbn [bind].
      2: { unfold check_array in Harray. destruct X as [| r X'].
           - injection Harray as <-. eexists. reflexivity.
           - destruct (Nat.eqb (List.length r) 0); [| discriminate].
             injection Harray as <-. eexists. reflexivity. }
      destruct (negb (Nat.eqb (List.length X) (List.length y)));
        [eexists; reflexivity |].
      unfold np_unique.
      destruct (existsb isna y); [eexists; reflexivity |].
      destruct (unique_of_constant y c0 Hconst) as [-> | ->];
        eexists; reflexivity.
    - apply to_matrix_raises_value_error in HX. destruct HX as (msg & ->).
      now exists msg. }
  destruct Hmodel as (msg & Hmodel). exists msg.
  split; [exact Hmodel |].
  intros bytes dumps st. unfold tabular_trainer. rewrite Hmodel. reflexivity.
Qed.

(** The theorem at the sample table of survivors, on the empty store. *)
Lemma single_class_raises_value_error_witness :
  exists msg,
    tabular_trainer zero_solver (fun obj => obj) survivors_only_sample empty_store
    = (Raise (ValueError msg), empty_store).
Proof.
  assert (Hrun : exists x,
             tabular_xy survivors_only_sample = Ok (x, [Num 1; Num 1; Num 1])).
  { eexists. reflexivity. }
  destruct Hrun as (x & Hxy).
  destruct (single_class_raises_value_error survivors_only_sample x
              [Num 1; Num 1; Num 1] (Num 1) Hxy) with (solver := zero_solver)
    as (msg & _ & Htrainer).
  - simpl. intros c [<- | [<- | [<- | []]]]; reflexivity.
  - exists msg. apply Htrainer.
Defined.

(** Where there is a term, the sorted distinct terms are not empty. *)
Lemma sorted_terms_cons (t : string) (terms : list string) :
  exists u us, sorted String.leb (nodup string_dec (t :: terms)) = u :: us.
Proof.
  destruct (sorted String.leb (nodup string_dec (t :: terms))) as [| u us] eqn:Hs.
  - exfalso.
    assert (Hin : In t (sorted String.leb (nodup string_dec (t :: terms)))).
    { rewrite sorted_In, nodup_In. now left. }
    rewrite Hs in Hin. exact Hin.
  - now exists u, us.
Qed.

(** X6.  With fewer than 20 distinct records in a review table that has
    its Text and Sentiment columns and holds strings as texts, cell 3 raises
    a [ValueError] at [fit], in the vectorizer: when the analysed texts yield
    no term at all, the one of an empty vocabulary; otherwise the one of a
    [min_df] of 20 documents above the number of documents there are.  No
    pipeline is produced, no file is opened and none is written. *)
Theorem few_reviews_raise (csv : DataFrame) (x y : list cell)
    (docs : list string) :
  text_xy csv = Ok (x, y) ->
  traverse to_document x = Ok docs ->
  (List.length (rows (drop_duplicates csv)) < 20)%nat ->
  forall solver (tokenize : string -> list string) (english : list string),
  let message :=
    match flat_map (analyze tokenize (vectorizer english)) docs with
    | [] => "empty vocabulary; perhaps the documents only contain stop words"
    | _ :: _ => "max_df corresponds to < documents than min_df"
    end in
  text_pipeline solver tokenize english csv = Raise (ValueError message)
  /\ forall (bytes : Type) (dumps : pickled -> bytes) (st : fs bytes),
       text_trainer solver tokenize english dumps csv st
       = (Raise (ValueError message), st).
Proof.
  intros Hxy Hdocs Hfew solver tokenize english message.
  assert (Hpipe : text_pipeline solver tokenize english csv
                  = Raise (ValueError message)).
  { unfold text_pipeline. rewrite Hxy. cbn [bind fst snd].
    assert (Hx : List.length x = List.length (rows (drop_duplicates csv))).
    { unfold text_xy, getitem in Hxy.
      bind_inv Hxy as x' Hx'. bind_inv Hx' as i Hi. injection Hx' as <-.
      bind_inv Hxy as y' Hy'. injection Hxy as <- _. apply length_map. }
    unfold pipeline_fit. rewrite Hdocs. cbn [bind].
    apply traverse_ok_length in Hdocs.
    unfold fit_vocabulary. cbn [vectorizer min_df]. unfold message.
    destruct (flat_map (analyze tokenize (vectorizer english)) docs)
      as [| t terms] eqn:Hterms.
    - reflexivity.
    - destruct (sorted_terms_cons t terms) as (u & us & ->).
      assert (Hlt : Nat.ltb (List.length docs) 20 = true)
        by (apply Nat.ltb_lt; lia).
      rewrite Hlt. reflexivity. }
  split; [exact Hpipe |].
  intros bytes dumps st. unfold text_trainer. rewrite Hpipe. reflexivity.
Qed.

(** The theorem at the sample of three reviews, on the empty store: the
    texts yield terms, and the error is the one of [min_df]. *)
Lemma few_reviews_raise_witness :
  text_trainer zero_solver words ["and"] (fun obj => obj) reviews_sample
    empty_store
  = (Raise (ValueError "max_df corresponds to < documents than min_df"),
     empty_store).
Proof.
  assert (Hrun : exists x y docs,
             text_xy reviews_sample = Ok (x, y)
             /\ traverse Sklearn.to_document x = Ok docs).
  { eexists. eexists. eexists. split; reflexivity. }
  destruct Hrun as (x & y & docs & Hxy & Hdocs).
  assert (Hfew : (List.length (rows (drop_duplicates reviews_sample)) < 20)%nat)
    by (simpl; lia).
  pose proof (few_reviews_raise reviews_sample x y docs Hxy Hdocs Hfew
                zero_solver words ["and"]) as H.
  cbv zeta in H. destruct H as (_ & Htrainer).
  specialize (Htrainer pickled (fun obj => obj) empty_store).
  injection Hxy as <- <-. injection Hdocs as <-.
  exact Htrainer.
Defined.

End FailureFacts.

(** ** Cells 1 to 5: what is written and what is read back *)

Module StoreFacts.

Import PythonFacts PandasFacts SklearnFacts FileFacts.
Import Sklearn Files Notebook Statements Samples.

Section Store.

Variable bytes : Type.

Lemma dict_get_filter_other (p q : string) (fl : list (string * bytes)) :
  q <> p ->
  dict_get q (filter (fun kv => negb (String.eqb (fst kv) p)) fl) = dict_get q fl.
Proof.
  intro Hneq. induction fl as [| [k v] fl IH]; simpl; [reflexivity |].
  destruct (String.eqb k p) eqn:Hkp; simpl.
  - apply String.eqb_eq in Hkp. subst k.
    destruct (String.eqb p q) eqn:Hpq; [| exact IH].
    apply String.eqb_eq in Hpq. congruence.
  - destruct (String.eqb k q); [reflexivity | exact IH].
Qed.

(** Writing a file does not change what another path holds. *)
Lemma dict_get_set_file_other (p q : string) (b : option bytes)
    (fl : list (string * bytes)) :
  q <> p -> dict_get q (set_file p b fl) = dict_get q fl.
Proof.
  intro Hneq. unfold set_file. destruct b as [data |]; simpl.
  - destruct (String.eqb p q) eqn:Hpq.
    + apply String.eqb_eq in Hpq. congruence.
    + now apply dict_get_filter_other.
  - now apply dict_get_filter_other.
Qed.

Lemma dict_get_set_file_same (p : string) (data : bytes)
    (fl : list (string * bytes)) :
  dict_get p (set_file p (Some data) fl) = Some data.
Proof. unfold set_file. simpl. now rewrite String.eqb_refl. Qed.

Variable dumps : pickled -> bytes.
Variable loads : bytes -> result pickled.

(** [pickle.dump(obj, open(p, 'wb'))] on a device with room: the file at
    [p] holds the dumped object, the other files are as before. *)
Lemma pickle_dump_writes (obj : pickled) (p : string) (st : fs bytes) :
  device_full st = false ->
  fst (pickle_dump dumps obj p st) = Ok tt
  /\ device_full (snd (pickle_dump dumps obj p st)) = false
  /\ dict_get p (files (snd (pickle_dump dumps obj p st))) = Some (dumps obj)
  /\ forall q, q <> p ->
       dict_get q (files (snd (pickle_dump dumps obj p st))) = dict_get q (files st).
Proof.
  intro Hroom.
  unfold pickle_dump, with_unnamed_file, io_bind, open_, finally,
    write_unflushed, write.
  rewrite is_open_head. cbn [negb device_full]. rewrite Hroom.
  cbn [andb fst snd close files path device_full].
  split; [reflexivity |]. split; [reflexivity |].
  split; [apply dict_get_set_file_same |].
  intros q Hq. now rewrite !dict_get_set_file_other.
Qed.

(** [pickle.load(open(p, 'rb'))] on a file that exists: the bytes of the
    file go through [loads]; no file changes. *)
Lemma pickle_load_reads (p : string) (data : bytes) (st : fs bytes) :
  dict_get p (files st) = Some data ->
  fst (pickle_load loads p st) = loads data
  /\ files (snd (pickle_load loads p st)) = files st.
Proof.
  intro Hfile.
  unfold pickle_load, with_unnamed_file, io_bind, open_, finally, read.
  rewrite Hfile. rewrite is_open_head. cbn [negb files path]. rewrite Hfile.
  unfold lift. split; reflexivity.
Qed.

(** [pickle.load(open(p, 'rb'))] on a path that holds no file: the open
    raises, and the store is as before. *)
Lemma pickle_load_missing (p : string) (st : fs bytes) :
  dict_get p (files st) = None ->
  pickle_load loads p st = (Raise (OSError "No such file or directory"), st).
Proof.
  intro Hfile. unfold pickle_load, with_unnamed_file, io_bind, open_.
  now rewrite Hfile.
Qed.

End Store.

(** X7.  The predictors read what the trainers wrote.  After cell 1 and
    cell 3 have run on a device with room, cell 2 scores the estimator
    cell 1 fitted and cell 4 scores the pipeline cell 3 fitted, provided
    pickle loads back each object it dumped: the two cells of a pair name
    one path, and the two pairs name different paths, so neither artifact
    overwrites the other. *)
Theorem predictors_read_what_trainers_wrote
    (bytes : Type) (dumps : pickled -> bytes) (loads : bytes -> result pickled)
    solver (tokenize : string -> list string) (english : list string)
    (names_validated : bool)
    (csv1 csv2 : DataFrame) (m : LogisticRegression) (pipe : Pipeline)
    (st : fs bytes) :
  tabular_model solver csv1 = Ok m ->
  text_pipeline solver tokenize english csv2 = Ok pipe ->
  loads (dumps (PickledModel m)) = Ok (PickledModel m) ->
  loads (dumps (PickledPipeline pipe)) = Ok (PickledPipeline pipe) ->
  device_full st = false ->
  let st1 := snd (tabular_trainer solver dumps csv1 st) in
  let st2 := snd (text_trainer solver tokenize english dumps csv2 st1) in
  fst (tabular_predictor tokenize english loads names_validated st2)
  = tabular_probability tokenize english names_validated (PickledModel m)
  /\ fst (text_predictor tokenize english loads st2)
     = text_probability tokenize english (PickledPipeline pipe).
Proof.
  intros Hm Hpipe Hload1 Hload2 Hroom st1 st2.
  assert (Hst1 : st1 = snd (pickle_dump dumps (PickledModel m) "titanic.pkl" st)).
  { unfold st1, tabular_trainer. rewrite Hm. reflexivity. }
  destruct (pickle_dump_writes bytes dumps (PickledModel m) "titanic.pkl" st Hroom)
    as (_ & Hroom1 & Hfile1 & _).
  rewrite <- Hst1 in Hroom1, Hfile1.
  assert (Hst2 : st2 = snd (pickle_dump dumps (PickledPipeline pipe) "sentiment.pkl" st1)).
  { unfold st2, text_trainer. rewrite Hpipe. reflexivity. }
  destruct (pickle_dump_writes bytes dumps (PickledPipeline pipe) "sentiment.pkl" st1 Hroom1)
    as (_ & _ & Hfile2 & Hothers).
  rewrite <- Hst2 in Hfile2, Hothers.
  assert (Htitanic : dict_get "titanic.pkl" (files st2) = Some (dumps (PickledModel m))).
  { rewrite Hothers by discriminate. exact Hfile1. }
  split.
  - unfold tabular_predictor, io_bind.
    destruct (pickle_load_reads bytes loads "titanic.pkl" _ st2 Htitanic) as (Hread & _).
    destruct (pickle_load loads "titanic.pkl" st2) as [r st3].
    cbn [fst] in Hread. subst r. rewrite Hload1. reflexivity.
  - unfold text_predictor, io_bind.
    destruct (pickle_load_reads bytes loads "sentiment.pkl" _ st2 Hfile2) as (Hread & _).
    destruct (pickle_load loads "sentiment.pkl" st2) as [r st3].
    cbn [fst] in Hread. subst r. rewrite Hload2. reflexivity.
Qed.

(** The theorem at the samples, with objects stored as they are: cell 2
    returns a probability for the estimator fitted on the four passengers. *)
Lemma predictors_read_what_trainers_wrote_witness :
  exists m,
    tabular_model zero_solver passengers_sample = Ok m
    /\ fst (tabular_predictor words ["and"] (fun b => Ok b) true
              (snd (text_trainer zero_solver words ["and"] (fun obj => obj)
                      twenty_reviews
                      (snd (tabular_trainer zero_solver (fun obj => obj)
                              passengers_sample empty_store)))))
       = tabular_probability words ["and"] true (PickledModel m).
Proof.
  assert (Hm : exists m, tabular_model zero_solver passengers_sample = Ok m)
    by (eexists; vm_compute; reflexivity).
  assert (Hp : exists pipe,
             text_pipeline zero_solver words ["and"] twenty_reviews = Ok pipe)
    by (eexists; vm_compute; reflexivity).
  destruct Hm as (m & Hm). destruct Hp as (pipe & Hp).
  exists m. split; [exact Hm |].
  apply (predictors_read_what_trainers_wrote pickled (fun obj => obj)
           (fun b => Ok b) zero_solver words ["and"] true
           passengers_sample twenty_reviews m pipe empty_store
           Hm Hp eq_refl eq_refl eq_refl).
Defined.

(** X8.  Cell 2 run before cell 1 has written [titanic.pkl] raises at the
    open and leaves the store as it found it; the same holds for cell 4 and
    [sentiment.pkl]. *)
Theorem predictors_need_their_artifact
    (bytes : Type) (loads : bytes -> result pickled)
    (tokenize : string -> list string) (english : list string)
    (names_validated : bool) (st : fs bytes) :
  (dict_get "titanic.pkl" (files st) = None ->
   tabular_predictor tokenize english loads names_validated st
   = (Raise (OSError "No such file or directory"), st))
  /\ (dict_get "sentiment.pkl" (files st) = None ->
      text_predictor tokenize english loads st
      = (Raise (OSError "No such file or directory"), st)).
Proof.
  split; intro Hfile.
  - unfold tabular_predictor, io_bind.
    now rewrite (pickle_load_missing bytes loads _ st Hfile).
  - unfold text_predictor, io_bind.
    now rewrite (pickle_load_missing bytes loads _ st Hfile).
Qed.

(** The theorem on the empty store, where neither artifact exists. *)
Lemma predictors_need_their_artifact_witness :
  tabular_predictor words ["and"] (fun b => Ok b) true empty_store
  = (Raise (OSError "No such file or directory"), empty_store)
  /\ text_predictor words ["and"] (fun b => Ok b) empty_store
     = (Raise (OSError "No such file or directory"), empty_store).
Proof.
  destruct (predictors_need_their_artifact pickled (fun b => Ok b) words ["and"]
              true empty_store) as (Htabular & Htext).
  split; [apply Htabular | apply Htext]; reflexivity.
Defined.

(** X9.  Cell 5 writes inside a [with] block: whether the conversion
    raises, the write raises or both go through, the handles that are open
    after the cell are those that were open before it.  When both go
    through, [sentiment.onnx] holds the converted graph and the pickle files
    are as before. *)
Theorem onnx_export_releases_handle
    (bytes : Type) (convert_sklearn : Pipeline -> result bytes)
    (pipe : Pipeline) (st : fs bytes) :
  descriptors_fresh st ->
  handles (snd (onnx_export convert_sklearn pipe st)) = handles st
  /\ (forall e, convert_sklearn pipe = Raise e ->
        onnx_export convert_sklearn pipe st = (Raise e, st))
  /\ (forall data, convert_sklearn pipe = Ok data -> device_full st = false ->
        fst (onnx_export convert_sklearn pipe st) = Ok tt
        /\ dict_get "sentiment.onnx" (files (snd (onnx_export convert_sklearn pipe st)))
           = Some data
        /\ forall q, q <> "sentiment.onnx" ->
             dict_get q (files (snd (onnx_export convert_sklearn pipe st)))
             = dict_get q (files st)).
Proof.
  intro Hfresh. unfold onnx_export.
  destruct (convert_sklearn pipe) as [data | e] eqn:Hconv.
  - split.
    + change (io_bind (lift (Ok data))
                (fun onnx => with_open "sentiment.onnx" WriteBinary
                               (fun f => write f onnx)) st)
        with (with_open "sentiment.onnx" WriteBinary (fun f => write f data) st).
      now apply with_open_write_releases_handle.
    + split; [discriminate |].
      intros data' [= <-] Hroom.
      unfold io_bind, lift, with_open, io_bind, open_, finally, write.
      rewrite is_open_head. cbn [negb device_full]. rewrite Hroom.
      cbn [fst snd close files path].
      split; [reflexivity |].
      split; [apply dict_get_set_file_same |].
      intros q Hq. now rewrite !dict_get_set_file_other.
  - split; [reflexivity |]. split.
    + now intros e' [= <-].
    + discriminate.
Qed.

(** The theorem on a store where the session holds two handles of its
    own on the tables: they are still the only open ones. *)
Lemma onnx_export_releases_handle_witness :
  handles
    (snd (onnx_export (fun pipe => Ok (PickledPipeline pipe)) sentiment_pipeline
            (mkFs [] [mkHandle 1 "reviews.csv" ReadBinary;
                      mkHandle 0 "titanic.csv" ReadBinary] 2 false
               (fun _ => true))))
  = [mkHandle 1 "reviews.csv" ReadBinary; mkHandle 0 "titanic.csv" ReadBinary].
Proof.
  apply (onnx_export_releases_handle pickled
           (fun pipe => Ok (PickledPipeline pipe)) sentiment_pipeline
           (mkFs [] [mkHandle 1 "reviews.csv" ReadBinary;
                     mkHandle 0 "titanic.csv" ReadBinary] 2 false
              (fun _ => true))).
  unfold descriptors_fresh. simpl. repeat constructor.
Defined.

End StoreFacts.

(** ** Cell 6: sessions the cell cannot index *)

Module OnnxEdgeFacts.

Import PythonFacts Onnx Notebook Statements Samples.

(** X10.  On a session that declares no input, or fewer than two outputs,
    cell 6 raises an [IndexError] while resolving the names, before the
    graph is run. *)
Theorem too_few_outputs_raise_index_error (session : InferenceSession) :
  get_inputs session = [] \/ (List.length (get_outputs session) < 2)%nat ->
  onnx_probability session = Raise IndexError.
Proof.
  intro Hfew. unfold onnx_probability, input_name, label_name.
  destruct (get_inputs session) as [| i inputs] eqn:Hin; [reflexivity |].
  destruct Hfew as [Hnone | Hfew]; [discriminate Hnone |].
  destruct (get_outputs session) as [| o0 [| o1 outputs]]; simpl in Hfew;
    try reflexivity.
  lia.
Qed.

(** The theorem at a session that declares the probability output only. *)
Lemma too_few_outputs_raise_index_error_witness :
  onnx_probability
    (mkInferenceSession
       [mkNodeArg "string_input" TensorString [None; Some 1%nat]]
       [mkNodeArg "output_probability" SeqMapInt64Float []]
       (fun _ => [ProbabilitySeq [[(0%Z, (1 / 8)%R); (1%Z, (7 / 8)%R)]]]))
  = Raise IndexError.
Proof.
  apply too_few_outputs_raise_index_error. right. simpl. lia.
Defined.

(** X13.  On a graph with the interface the converter declares, the last
    index of [[0][0][1]] is a key, not a position: when the first sample's
    map of the probability output holds each class once, the cell returns
    the probability stored under class 1 wherever it stands in the map, and
    raises a [KeyError] when the map holds no class 1. *)
Theorem onnx_probability_is_looked_up_by_class
    (compute : list (list (list string)) -> list value)
    (labels : list Z) (sample : list (Z * R)) (others : list (list (Z * R))) :
  compute [[[query]]] = [LabelTensor labels; ProbabilitySeq (sample :: others)] ->
  NoDup (map fst sample) ->
  (forall p, In (1%Z, p) sample ->
     onnx_probability (converted_session compute) = Ok p)
  /\ ((forall p, ~ In (1%Z, p) sample) ->
      onnx_probability (converted_session compute) = Raise (KeyError "1")).
Proof.
  intros Hgraph Hkeys.
  assert (Hrun : onnx_probability (converted_session compute)
                 = match find (fun kv => Z.eqb (fst kv) 1) sample with
                   | Some kv => Ok (snd kv)
                   | None => Raise (KeyError "1")
                   end).
  { unfold onnx_probability, input_name, label_name, run, converted_session.
    cbn [get_inputs get_outputs graph list_getitem nth_error bind name
         traverse dict_get map String.eqb Ascii.eqb Bool.eqb].
    rewrite Hgraph. reflexivity. }
  rewrite Hrun. split.
  - intros p Hp.
    destruct (find (fun kv => Z.eqb (fst kv) 1) sample) as [[k p'] |] eqn:Hfind.
    + apply find_some in Hfind. destruct Hfind as (Hin & Hk).
      cbn [fst] in Hk. apply Z.eqb_eq in Hk. subst k. cbn [snd]. f_equal.
      clear Hrun Hgraph.
      induction sample as [| [k0 p0] sample IH]; [contradiction |].
      inversion Hkeys as [| ? ? Hk0 Hrest]; subst. cbn [fst] in Hk0.
      destruct Hin as [Hin | Hin], Hp as [Hp | Hp].
      * congruence.
      * exfalso. apply Hk0. injection Hin as -> _.
        apply in_map_iff. now exists (1%Z, p).
      * exfalso. apply Hk0. injection Hp as -> _.
        apply in_map_iff. now exists (1%Z, p').
      * now apply IH.
    + exfalso. apply (find_none _ _ Hfind) in Hp. cbn [fst] in Hp. discriminate.
  - intro Hnone.
    destruct (find (fun kv => Z.eqb (fst kv) 1) sample) as [[k p'] |] eqn:Hfind;
      [| reflexivity].
    apply find_some in Hfind. destruct Hfind as (Hin & Hk).
    cbn [fst] in Hk. apply Z.eqb_eq in Hk. subst k.
    exfalso. now apply (Hnone p').
Qed.

(** The theorem at a graph whose map lists class 1 before class 0. *)
Lemma onnx_probability_is_looked_up_by_class_witness :
  onnx_probability
    (converted_session
       (fun _ => [LabelTensor [1%Z];
                  ProbabilitySeq [[(1%Z, (7 / 8)%R); (0%Z, (1 / 8)%R)]]]))
  = Ok (7 / 8)%R.
Proof.
  destruct (onnx_probability_is_looked_up_by_class
              (fun _ => [LabelTensor [1%Z];
                         ProbabilitySeq [[(1%Z, (7 / 8)%R); (0%Z, (1 / 8)%R)]]])
              [1%Z] [(1%Z, (7 / 8)%R); (0%Z, (1 / 8)%R)] [] eq_refl)
    as (Hfound & _).
  - repeat constructor; simpl; intuition discriminate.
  - apply Hfound. now left.
Defined.

End OnnxEdgeFacts.

(** ** Cells 3 and 4: the fitted pipeline and the texts it scores *)

Module PipelineFacts.

Import PythonFacts PandasFacts SklearnFacts VectorizerFacts.
Import Sklearn Notebook Statements Samples.

Lemma traverse_all_ok {A B : Type} (f : A -> result B) (xs : list A) :
  (forall x, In x xs -> exists y, f x = Ok y) ->
  exists ys, traverse f xs = Ok ys /\ List.length ys = List.length xs.
Proof.
  induction xs as [| x xs IH]; simpl; intro Hall.
  - exists []. split; reflexivity.
  - destruct (Hall x (or_introl eq_refl)) as (y & ->).
    destruct IH as (ys & -> & Hlen); [intros; apply Hall; now right |].
    exists (y :: ys). split; [reflexivity | simpl; now rewrite Hlen].
Qed.

(** The vocabulary [fit] returns: the kept terms, none twice, at least
    one. *)
Lemma fit_vocabulary_shape tokenize cv (docs vocabulary : list string) :
  fit_vocabulary tokenize cv docs = Ok vocabulary ->
  NoDup vocabulary /\ vocabulary <> [].
Proof.
  unfold fit_vocabulary.
  set (terms := sorted String.leb
                  (nodup string_dec (flat_map (analyze tokenize cv) docs))).
  assert (Hnodup : NoDup terms).
  { apply (Permutation_NoDup (Permutation_sym (sorted_perm String.leb _))).
    apply NoDup_nodup. }
  destruct terms as [| t terms']; [discriminate |].
  destruct (Nat.ltb (List.length docs) (min_df cv)); [discriminate |].
  match goal with
  | |- context [filter ?keep (t :: terms')] =>
      pose proof (NoDup_filter keep Hnodup) as Hkept;
      destruct (filter keep (t :: terms')) as [| v kept]
  end; [discriminate |].
  intros [= <-]. split; [exact Hkept | discriminate].
Qed.

(** X11.  A pipeline fitted by cell 3 is consistent with itself: its
    vocabulary is not empty and holds no term twice, its classifier saw one
    feature per vocabulary term and at least two classes, and for any list of
    at least one text [predict_proba] returns one row per text, without
    raising.  On the empty list of texts it raises a [ValueError]: the
    classifier asks for one sample at least. *)
Theorem fitted_pipeline_scores_every_text
    solver (tokenize : string -> list string) (english : list string)
    (csv : DataFrame) (pipe : Pipeline) :
  text_pipeline solver tokenize english csv = Ok pipe ->
  vocabulary_ pipe <> []
  /\ NoDup (vocabulary_ pipe)
  /\ n_features_in_ (classifier pipe) = List.length (vocabulary_ pipe)
  /\ (2 <= List.length (classes_ (classifier pipe)))%nat
  /\ (forall texts, texts <> [] -> exists proba,
        predict_proba_texts tokenize english (PickledPipeline pipe) texts = Ok proba
        /\ List.length proba = List.length texts)
  /\ predict_proba_texts tokenize english (PickledPipeline pipe) []
     = Raise (ValueError "Found array with 0 sample(s) while a minimum of 1 is required").
Proof.
  intro Hpipe. unfold text_pipeline in Hpipe.
  apply bind_ok_inv in Hpipe. destruct Hpipe as ((x & y) & _ & Hfit).
  unfold pipeline_fit in Hfit. cbn [fst snd] in Hfit.
  bind_inv Hfit as docs Hdocs.
  bind_inv Hfit as vocabulary Hvoc.
  bind_inv Hfit as clf Hclf.
  injection Hfit as <-. cbn [vocabulary_ classifier].
  destruct (fit_vocabulary_shape _ _ _ _ Hvoc) as (Hnodup & Hnonempty).
  apply fit_matrix_records in Hclf.
  destruct Hclf as (Hclasses & Htwo & Hlen & Hn & _).
  assert (Hfeatures : n_features_in_ clf = List.length vocabulary).
  { rewrite Hn. destruct docs as [| doc docs'].
    - simpl in Hlen. destruct y; [| discriminate Hlen].
      apply np_unique_nil_inv in Hclasses. rewrite Hclasses in Htwo.
      simpl in Htwo. lia.
    - simpl. unfold transform. apply length_map. }
  split; [assumption |]. split; [assumption |]. split; [assumption |].
  split; [assumption |]. split; [| reflexivity].
  intros texts Htexts. cbn [predict_proba_texts].
  unfold pipeline_predict_proba, predict_proba. cbn [vocabulary_ classifier].
  destruct texts as [| text texts']; [contradiction |]. cbn [map].
  rewrite check_array_ok.
  2: { unfold transform. intro Hnil. apply map_eq_nil in Hnil. contradiction. }
  cbn [bind].
  destruct (traverse_all_ok (proba_row clf)
              (map (transform tokenize (vectorizer english) vocabulary)
                 (text :: texts')))
    as (proba & Hproba & Hrows).
  - intros v Hv. apply in_map_iff in Hv. destruct Hv as (text0 & <- & _).
    apply proba_row_ok. rewrite Hfeatures. unfold transform. apply length_map.
  - exists proba. split; [exact Hproba |]. now rewrite Hrows, length_map.
Qed.

(** The theorem at the sample of twenty reviews: the fitted pipeline
    returns one row for the query of cell 4, and raises on no text. *)
Lemma fitted_pipeline_scores_every_text_witness :
  exists pipe proba,
    text_pipeline zero_solver words ["and"] twenty_reviews = Ok pipe
    /\ predict_proba_texts words ["and"] (PickledPipeline pipe) [query] = Ok proba
    /\ List.length proba = 1%nat
    /\ predict_proba_texts words ["and"] (PickledPipeline pipe) []
       = Raise (ValueError "Found array with 0 sample(s) while a minimum of 1 is required").
Proof.
  assert (Hp : exists pipe,
             text_pipeline zero_solver words ["and"] twenty_reviews = Ok pipe)
    by (eexists; vm_compute; reflexivity).
  destruct Hp as (pipe & Hp).
  destruct (fitted_pipeline_scores_every_text zero_solver words ["and"]
              twenty_reviews pipe Hp) as (_ & _ & _ & _ & Hscore & Hnone).
  destruct (Hscore [query]) as (proba & Hproba & Hlen); [discriminate |].
  exists pipe, proba. split; [exact Hp |]. repeat split; assumption.
Defined.

(** X12.  Stop words never reach the classifier: two texts whose tokens
    agree once the stop words are taken out get the same row of
    probabilities from the pipeline, by unigrams and by bigrams alike, since
    bigrams are formed after the stop words have left. *)
Theorem stop_words_do_not_change_the_score
    (tokenize : string -> list string) (english : list string)
    (pipe : Pipeline) (text1 text2 : string) :
  filter (fun w => negb (is_stop_word (vectorizer english) w)) (tokenize text1)
  = filter (fun w => negb (is_stop_word (vectorizer english) w)) (tokenize text2) ->
  analyze tokenize (vectorizer english) text1
  = analyze tokenize (vectorizer english) text2
  /\ predict_proba_texts tokenize english (PickledPipeline pipe) [text1]
     = predict_proba_texts tokenize english (PickledPipeline pipe) [text2].
Proof.
  intro Hsame.
  assert (Hanalyze : analyze tokenize (vectorizer english) text1
                     = analyze tokenize (vectorizer english) text2).
  { unfold analyze, word_ngrams. now rewrite Hsame. }
  split; [exact Hanalyze |].
  cbn [predict_proba_texts]. unfold pipeline_predict_proba, transform.
  cbn [map]. now rewrite Hanalyze.
Qed.

(** The theorem at the query of cell 4, with and without its stop word. *)
Lemma stop_words_do_not_change_the_score_witness :
  predict_proba_texts words ["and"] (PickledPipeline sentiment_pipeline)
    ["great food and excellent service"]
  = predict_proba_texts words ["and"] (PickledPipeline sentiment_pipeline)
      ["great food excellent and service"].
Proof.
  assert (Hsame :
    filter (fun w => negb (is_stop_word (vectorizer ["and"]) w))
      (words "great food and excellent service")
    = filter (fun w => negb (is_stop_word (vectorizer ["and"]) w))
        (words "great food excellent and service"))
    by (vm_compute; reflexivity).
  destruct (stop_words_do_not_change_the_score words ["and"] sentiment_pipeline
              "great food and excellent service"
              "great food excellent and service" Hsame) as (_ & Hscore).
  exact Hscore.
Defined.

End PipelineFacts.
